(** * dax_metaserv: the REST interface of the Metadata Service (api_v1.py)

    A shallow embedding of [lsst/dax/metaserv/api_v1.py]: the request
    handlers [databases], [database], [tables] and [table], the
    [before_request] hook [check_auth] and the compiled name pattern
    [SAFE_NAME_REGEX].  Python exceptions and the queries sent to the
    catalog store are explicit: a handler is a computation in the monad [M],
    which records the events of the request (store queries, log lines) and
    ends in a value or in a raised exception. *)

From Stdlib Require Import ZArith List String Ascii Bool Lia.
From Stdlib Require Import Sorting.Permutation Sorting.Sorted.
From Stdlib Require Import DecimalString DecimalZ.
Import ListNotations.
Open Scope string_scope.
Open Scope Z_scope.
Open Scope list_scope.
Set Warnings "-register-all".

(** ** Python values and exceptions *)

(** The exception classes that the handlers and the hook can meet. *)
Inductive exn : Type :=
| AttributeError
| IndexError
| TypeError
| ValueError
| UnicodeDecodeError
| MultipleResultsFound.

(** What a request leaves behind besides its response: one [StoreQuery] per
    query the handler sends to the catalog store, one [LogInfo] per
    [log.info] call. *)
Inductive event : Type :=
| StoreQuery
| LogInfo (msg : string).

(** A computation: the events so far, and a raised exception or a value. *)
Definition M (A : Type) : Type := (list event * (exn + A))%type.

Definition ret {A} (a : A) : M A := ([], inr a).
Definition raise {A} (e : exn) : M A := ([], inl e).
Definition bind {A B} (m : M A) (f : A -> M B) : M B :=
  match m with
  | (tr, inl e) => (tr, inl e)
  | (tr, inr a) => let (tr', r) := f a in (tr ++ tr', r)
  end.

Notation "x <- c1 ;; c2" := (bind c1 (fun x => c2))
  (at level 61, c1 at next level, right associativity).
Notation "c1 ;;; c2" := (bind c1 (fun _ => c2))
  (at level 61, right associativity).

Definition events {A} (m : M A) : list event := fst m.
Definition outcome {A} (m : M A) : exn + A := snd m.

Definition is_query (e : event) : bool :=
  match e with StoreQuery => true | LogInfo _ => false end.

(** The number of queries a computation sent to the store. *)
Definition queries {A} (m : M A) : nat :=
  List.length (filter is_query (events m)).

(** [obj.attr] on a value that may be [None]: Python raises
    [AttributeError] on [None]. *)
Definition getattr {A B} (obj : option A) (attr : A -> B) : M B :=
  match obj with
  | Some a => ret (attr a)
  | None => raise AttributeError
  end.

(** [log.info(msg)] *)
Definition log_info (msg : string) : M unit := ([LogInfo msg], inr tt).

(** ** JSON documents

    Objects are association lists: the fields in the order in which the code
    builds them ([OrderedDict], the field order of a serialisation schema,
    the order of a dict display). *)
Inductive json : Type :=
| JNull
| JNum (n : Z)
| JStr (s : string)
| JBool (b : bool)
| JList (items : list json)
| JObj (fields : list (string * json)).

(** [d[key] = value] on an [OrderedDict]: an existing key keeps its place
    and takes the new value, a new key goes to the end. *)
Fixpoint odict_set (d : list (string * json)) (key : string) (value : json)
  : list (string * json) :=
  match d with
  | [] => [(key, value)]
  | (k, v) :: rest =>
      if String.eqb k key then (k, value) :: rest
      else (k, v) :: odict_set rest key value
  end.

Definition keys (d : list (string * json)) : list string := map fst d.

(** ** The catalog store (model.py)

    Modelled from the spec: the record declarations of [model.py], which is
    not part of the sources at hand (section 3 of the specification, and the
    attributes that api_v1.py reads: [id], [name], [schemas],
    [default_schema], [schema_id]).  A row of each mapped class is a record;
    the store is the rows of the four tables, in the order in which the store
    returns them. *)
Record MSDatabase : Type := {
  db_id_ : Z;
  db_name : string;
  conn_host : string;
  conn_port : Z
}.

Record MSDatabaseSchema : Type := {
  sch_id : Z;
  sch_db_id : Z;
  sch_name : string;
  is_default_schema : bool
}.

Record MSDatabaseTable : Type := {
  tbl_id : Z;
  tbl_schema_id : Z;
  tbl_name : string;
  tbl_description : string;
  tbl_type : string
}.

Record MSDatabaseColumn : Type := {
  col_id : Z;
  col_table_id : Z;
  col_name : string;
  col_description : string;
  col_datatype : string;
  col_ucd : string;
  col_unit : string;
  col_ordinal : Z
}.

Record Store : Type := {
  MSDatabase_rows : list MSDatabase;
  MSDatabaseSchema_rows : list MSDatabaseSchema;
  MSDatabaseTable_rows : list MSDatabaseTable;
  MSDatabaseColumn_rows : list MSDatabaseColumn
}.

(** *** Running a query

    A query is the list of the rows it selects; [first], [scalar] and [all]
    send it to the store. *)

(** [Query.first()]: the first row, or [None]. *)
Definition first {A} (q : list A) : M (option A) :=
  ([StoreQuery], inr (hd_error q)).

(** [Query.scalar()]: [None] without a row, the row when there is exactly
    one, [MultipleResultsFound] otherwise. *)
Definition scalar {A} (q : list A) : M (option A) :=
  ([StoreQuery],
   match q with
   | [] => inr None
   | [x] => inr (Some x)
   | _ :: _ :: _ => inl MultipleResultsFound
   end).

(** [Query.all()], and the iteration of a dynamic relationship. *)
Definition all {A} (q : list A) : M (list A) := ([StoreQuery], inr q).

(** *** Comparing an id column with a path token *)

(** [str(i)] of a Python integer. *)
Definition str (i : Z) : string := NilZero.string_of_int (Z.to_int i).

(** Modelled from the spec: the numeric value of a path token, which the
    store computes when it compares an integer column with a string (section
    4.1: the token is a candidate surrogate id if it parses as a numeric
    literal).  The comparison itself belongs to the store, not to api_v1.py. *)
Definition numeric_value (token : string) : option Z :=
  option_map Z.of_int (NilZero.int_of_string token).

(** [Column == token] for an integer column. *)
Definition id_eq (id : Z) (token : string) : bool :=
  match numeric_value token with
  | Some n => Z.eqb id n
  | None => false
  end.

(** [or_(MSDatabase.id == db_id, MSDatabase.name == db_id)] *)
Definition database_matches (db_id : string) (d : MSDatabase) : bool :=
  id_eq (db_id_ d) db_id || String.eqb (db_name d) db_id.

(** [or_(MSDatabaseSchema.id == schema_id, MSDatabaseSchema.name == schema_id)] *)
Definition schema_matches (schema_id : string) (s : MSDatabaseSchema) : bool :=
  id_eq (sch_id s) schema_id || String.eqb (sch_name s) schema_id.

(** [and_(MSDatabaseTable.schema_id == schema.id,
          or_(MSDatabaseTable.name == table_id, MSDatabaseTable.id == table_id))] *)
Definition table_matches (schema_id : Z) (table_id : string)
  (t : MSDatabaseTable) : bool :=
  Z.eqb (tbl_schema_id t) schema_id
  && (String.eqb (tbl_name t) table_id || id_eq (tbl_id t) table_id).

(** [session.query(MSDatabase).filter(or_(...))], not yet sent. *)
Definition query_database (st : Store) (db_id : string) : list MSDatabase :=
  filter (database_matches db_id) (MSDatabase_rows st).

(** The dynamic relationship [database.schemas]. *)
Definition schemas (st : Store) (d : MSDatabase) : list MSDatabaseSchema :=
  filter (fun s => Z.eqb (sch_db_id s) (db_id_ d)) (MSDatabaseSchema_rows st).

(** The dynamic relationship [database.default_schema]: the schemas of the
    database that are marked as its default. *)
Definition default_schema (st : Store) (d : MSDatabase)
  : list MSDatabaseSchema :=
  filter is_default_schema (schemas st d).

(** The rows of [MSDatabaseTable] that belong to the schema with this id:
    [session.query(MSDatabaseTable).filter(MSDatabaseTable.schema_id == schema.id)]. *)
Definition tables_of_schema (st : Store) (schema_id : Z)
  : list MSDatabaseTable :=
  filter (fun t => Z.eqb (tbl_schema_id t) schema_id) (MSDatabaseTable_rows st).

(** ** Serialisation schemas (api_model.py)

    Modelled from the spec: the schemas [Database], [DatabaseSchema],
    [DatabaseTable] and the column descriptor of [api_model.py], which is not
    part of the sources at hand.  The fields are those of section 4.3 of the
    specification, in the order of the example responses in the docstrings of
    api_v1.py.  Dumping [None] gives the empty document, as the serialisation
    library does for an object without any of the attributes. *)

Definition Database_dump (st : Store) (obj : option MSDatabase)
  : list (string * json) :=
  match obj with
  | None => []
  | Some d =>
      [("name", JStr (db_name d));
       ("host", JStr (conn_host d));
       ("port", JNum (conn_port d));
       ("default_schema",
        match default_schema st d with
        | s :: _ => JStr (sch_name s)
        | [] => JNull
        end)]
  end.

Definition DatabaseSchema_dump (obj : option MSDatabaseSchema)
  : list (string * json) :=
  match obj with
  | None => []
  | Some s =>
      [("name", JStr (sch_name s));
       ("is_default_schema", JBool (is_default_schema s))]
  end.

Definition DatabaseColumn_dump (c : MSDatabaseColumn) : list (string * json) :=
  [("name", JStr (col_name c));
   ("description", JStr (col_description c));
   ("datatype", JStr (col_datatype c));
   ("ucd", JStr (col_ucd c));
   ("unit", JStr (col_unit c))].

(** Modelled from the spec: the columns of a table are listed by ordinal
    position (section 4.3, Table-detail).  The ordering belongs to the
    relationship [MSDatabaseTable.columns] of [model.py]; it is an insertion
    sort on [col_ordinal] here, which keeps columns of equal position in the
    order of the store. *)
Fixpoint insert_column (c : MSDatabaseColumn) (l : list MSDatabaseColumn)
  : list MSDatabaseColumn :=
  match l with
  | [] => [c]
  | x :: rest =>
      if Z.leb (col_ordinal c) (col_ordinal x) then c :: x :: rest
      else x :: insert_column c rest
  end.

Definition order_by_ordinal (l : list MSDatabaseColumn)
  : list MSDatabaseColumn :=
  fold_right insert_column [] l.

(** The relationship [table.columns]. *)
Definition columns (st : Store) (t : MSDatabaseTable)
  : list MSDatabaseColumn :=
  order_by_ordinal
    (filter (fun c => Z.eqb (col_table_id c) (tbl_id t))
       (MSDatabaseColumn_rows st)).

Definition DatabaseTable_dump (st : Store) (obj : option MSDatabaseTable)
  : list (string * json) :=
  match obj with
  | None => []
  | Some t =>
      [("name", JStr (tbl_name t));
       ("description", JStr (tbl_description t));
       ("table_type", JStr (tbl_type t));
       ("columns",
        JList (map (fun c => JObj (DatabaseColumn_dump c)) (columns st t)))]
  end.

(** ** Responses *)

Record response : Type := {
  status : Z;
  body : option json
}.

(** [jsonify(doc)]: status 200; [body] is the document handed to
    [jsonify], its fields in the order in which the view built them.  What
    is sent is [wire_body] below: the serialiser sorts the keys of every
    object. *)
Definition jsonify (doc : json) : response :=
  {| status := 200; body := Some doc |}.

(** *** The serialised document

    [jsonify] serialises with [sort_keys] as long as the application leaves
    [JSON_SORT_KEYS] at its default, and api_v1.py sets no option: the items
    of every object are sorted by key, lists keep their order. *)
Fixpoint insert_field (f : string * json) (l : list (string * json))
  : list (string * json) :=
  match l with
  | [] => [f]
  | g :: rest =>
      if String.leb (fst f) (fst g) then f :: g :: rest
      else g :: insert_field f rest
  end.

(** [sorted(dct.items(), key=lambda kv: kv[0])] *)
Definition sort_fields (l : list (string * json)) : list (string * json) :=
  fold_right insert_field [] l.

Fixpoint sort_keys (j : json) : json :=
  match j with
  | JList items => JList (map sort_keys items)
  | JObj fields =>
      JObj (sort_fields
              ((fix values (fs : list (string * json)) :=
                  match fs with
                  | [] => []
                  | (k, v) :: rest => (k, sort_keys v) :: values rest
                  end) fields))
  | JNull | JNum _ | JStr _ | JBool _ => j
  end.

(** The document of a response as it is sent. *)
Definition wire_body (resp : response) : option json :=
  option_map sort_keys (body resp).



(** An exception that leaves a view or a [before_request] hook is answered
    by the framework with status 500 and no document. *)
Definition handle_exception (m : M response) : list event * response :=
  match m with
  | (tr, inr r) => (tr, r)
  | (tr, inl _) => (tr, {| status := 500; body := None |})
  end.

(** ** The views *)

(** [GET /db/] *)
Definition databases (st : Store) : M response :=
  databases_ <- all (MSDatabase_rows st) ;;
  let results :=
    JList (map (fun d => JObj (Database_dump st (Some d))) databases_) in
  ret (jsonify (JObj [("results", results)])).

(** [GET /db/<db_id>/].  The view also stores the row in
    [request.database]; nothing in the module reads it back. *)
Definition database (st : Store) (db_id : string) : M response :=
  database_ <- first (query_database st db_id) ;;
  let db_result := Database_dump st database_ in
  schemas_query <- getattr database_ (schemas st) ;;
  schemas_rows <- all schemas_query ;;
  let schemas_result :=
    JList (map (fun s => JObj (DatabaseSchema_dump (Some s))) schemas_rows) in
  let response := odict_set db_result "schemas" schemas_result in
  ret (jsonify (JObj response)).

(** The choice of the schema, the same statement in [tables] (lines 282-288)
    and in [table] (lines 372-378). *)
Definition select_schema (st : Store) (database_ : option MSDatabase)
  (schema_id : option string) : M (option MSDatabaseSchema) :=
  match schema_id with
  | Some schema_id =>
      schemas_query <- getattr database_ (schemas st) ;;
      scalar (filter (schema_matches schema_id) schemas_query)
  | None =>
      default_query <- getattr database_ (default_schema st) ;;
      scalar default_query
  end.

(** [GET /db/<db_id>/tables/] and [GET /db/<db_id>/<schema_id>/tables/] *)
Definition tables (st : Store) (db_id : string) (schema_id : option string)
  : M response :=
  database_ <- first (query_database st db_id) ;;
  schema <- select_schema st database_ schema_id ;;
  let schema_result := DatabaseSchema_dump schema in
  schema_dot_id <- getattr schema sch_id ;;
  tables_ <- all (tables_of_schema st schema_dot_id) ;;
  let tables_result :=
    JList (map (fun t => JObj (DatabaseTable_dump st (Some t))) tables_) in
  ret (jsonify (JObj [("results",
                       JObj [("schema", JObj schema_result);
                             ("tables", tables_result)])])).

(** [GET /db/<db_id>/tables/<table_id>/] and
    [GET /db/<db_id>/<schema_id>/tables/<table_id>/] *)
Definition table (st : Store) (db_id : string) (table_id : string)
  (schema_id : option string) : M response :=
  database_ <- scalar (query_database st db_id) ;;
  schema <- select_schema st database_ schema_id ;;
  schema_dot_id <- getattr schema sch_id ;;
  table_ <- scalar (filter (table_matches schema_dot_id table_id)
                      (MSDatabaseTable_rows st)) ;;
  let tables_result := DatabaseTable_dump st table_ in
  ret (jsonify (JObj [("result", JObj tables_result)])).

(** ** The name pattern

    [SAFE_NAME_REGEX = r'[A-Za-z_$][A-Za-z0-9_$]*$'], compiled into
    [SAFE_SCHEMA_PATTERN] and [SAFE_TABLE_PATTERN].  No view applies either
    pattern to a path token. *)

Definition is_letter (c : ascii) : bool :=
  let n := nat_of_ascii c in
  ((65 <=? n) && (n <=? 90) || (97 <=? n) && (n <=? 122))%nat.

Definition is_digit (c : ascii) : bool :=
  let n := nat_of_ascii c in ((48 <=? n) && (n <=? 57))%nat.

(** [[A-Za-z_$]] *)
Definition name_start (c : ascii) : bool :=
  is_letter c || Ascii.eqb c "_" || Ascii.eqb c "$".

(** [[A-Za-z0-9_$]] *)
Definition name_char (c : ascii) : bool :=
  name_start c || is_digit c.

(** [[A-Za-z0-9_$]*$]: the characters of the class up to the end of the
    string; [$] also matches before a newline that ends the string. *)
Fixpoint name_rest (s : string) : bool :=
  match s with
  | EmptyString => true
  | String c rest =>
      if name_char c then name_rest rest
      else Ascii.eqb c "010" && String.eqb rest EmptyString
  end.

(** [SAFE_SCHEMA_PATTERN.match(token) is not None] *)
Definition SAFE_NAME_REGEX (token : string) : bool :=
  match token with
  | EmptyString => false
  | String c rest => name_start c && name_rest rest
  end.

Definition SAFE_SCHEMA_PATTERN := SAFE_NAME_REGEX.
Definition SAFE_TABLE_PATTERN := SAFE_NAME_REGEX.

(** ** The [before_request] hook *)

(** [s.split(sep)] for a separator of one character. *)
Fixpoint split (sep : ascii) (s : string) : list string :=
  match s with
  | EmptyString => [EmptyString]
  | String c rest =>
      if Ascii.eqb c sep then EmptyString :: split sep rest
      else match split sep rest with
           | w :: ws => String c w :: ws
           | [] => [String c EmptyString]
           end
  end.

(** [l[i]]: [IndexError] out of range. *)
Definition getitem {A} (l : list A) (i : nat) : M A :=
  match nth_error l i with
  | Some x => ret x
  | None => raise IndexError
  end.

(** [c * n] for a character [c]. *)
Fixpoint repeat_char (c : ascii) (n : nat) : string :=
  match n with
  | O => EmptyString
  | S n' => String c (repeat_char c n')
  end.

(** [obj.get(key)] on a decoded JSON value: a dict has the method, any other
    value raises [AttributeError]. *)
Fixpoint dict_get (d : list (string * json)) (key : string) : json :=
  match d with
  | [] => JNull
  | (k, v) :: rest => if String.eqb k key then v else dict_get rest key
  end.

Definition json_get (obj : json) (key : string) : M json :=
  match obj with
  | JObj d => ret (dict_get d key)
  | _ => raise AttributeError
  end.

(** [try: body except classes: handler] *)
Definition try_except {A} (body : M A) (classes : exn -> bool)
  (handler : M A) : M A :=
  match body with
  | (tr, inl e) =>
      if classes e then let (tr', r) := handler in (tr ++ tr', r)
      else (tr, inl e)
  | (tr, inr a) => (tr, inr a)
  end.

(** [except (UnicodeDecodeError, TypeError, ValueError)] *)
Definition jwt_errors (e : exn) : bool :=
  match e with
  | UnicodeDecodeError | TypeError | ValueError => true
  | AttributeError | IndexError | MultipleResultsFound => false
  end.

Section CheckAuth.

(** The library calls of the hook: [base64.urlsafe_b64decode],
    [json.loads] and the formatting of the decoded user name. *)
Variable urlsafe_b64decode : string -> M string.
Variable json_loads : string -> M json.
Variable format_user : json -> string.

(** [check_auth()], on [request.headers.get("Authorization")]. *)
Definition check_auth (auth_header : option string) : M unit :=
  match auth_header with
  | None | Some EmptyString => ret tt
  | Some auth_header =>
      try_except
        (let auth_header_parts := split " " auth_header in
         atk <- getitem auth_header_parts 1 ;;
         p <- getitem (split "." atk) 1 ;;
         let p := (p ++ repeat_char "=" (String.length p mod 4))%string in
         p <- urlsafe_b64decode p ;;
         loaded <- json_loads p ;;
         user_name <- json_get loaded "uid" ;;
         log_info ("JWT received for user: " ++ format_user user_name)%string)
        jwt_errors
        (log_info "unexpected error in JWT")
  end.

(** A request: the hook, then the view; the framework turns an exception
    of either into the 500 response. *)
Definition full_dispatch_request (auth_header : option string)
  (view : M response) : list event * response :=
  handle_exception (check_auth auth_header ;;; view).

End CheckAuth.

(** ** The documents of a resolved chain

    The documents that the views build once the chain is resolved, named so
    that the theorems can speak of them. *)

(** Lines 184-189 of [database]. *)
Definition database_document (st : Store) (d : MSDatabase) : json :=
  JObj (odict_set (Database_dump st (Some d)) "schemas"
          (JList (map (fun s => JObj (DatabaseSchema_dump (Some s)))
                    (schemas st d)))).

(** Lines 290-299 of [tables]. *)
Definition tables_document (st : Store) (s : MSDatabaseSchema) : json :=
  JObj [("results",
         JObj [("schema", JObj (DatabaseSchema_dump (Some s)));
               ("tables",
                JList (map (fun t => JObj (DatabaseTable_dump st (Some t)))
                         (tables_of_schema st (sch_id s))))])].

(** Lines 388-390 of [table]. *)
Definition table_document (st : Store) (t : option MSDatabaseTable) : json :=
  JObj [("result", JObj (DatabaseTable_dump st t))].

(** The query that [select_schema] sends for a resolved database. *)
Definition schema_query (st : Store) (d : MSDatabase)
  (schema_id : option string) : list MSDatabaseSchema :=
  match schema_id with
  | Some schema_id => filter (schema_matches schema_id) (schemas st d)
  | None => default_schema st d
  end.

(** ** Induction on documents

    The induction principle of [json] with the hypotheses for the items of
    a list and for the values of an object. *)
Section JsonInduction.

Variable P : json -> Prop.
Hypothesis P_null : P JNull.
Hypothesis P_num : forall n, P (JNum n).
Hypothesis P_str : forall s, P (JStr s).
Hypothesis P_bool : forall b, P (JBool b).
Hypothesis P_list : forall items, Forall P items -> P (JList items).
Hypothesis P_obj :
  forall fields, Forall (fun kv => P (snd kv)) fields -> P (JObj fields).


End JsonInduction.


(** The order of two columns by ordinal position. *)
Definition ordinal_le (a b : MSDatabaseColumn) : Prop :=
  col_ordinal a <= col_ordinal b.

(** ** The session factory

    [Session()] reads the attribute [_Session] of the application context
    [g] and, when it is absent, stores a new session maker under [_session].
    The context is explicit state: its attributes, and the number of session
    makers built so far. *)
Section SessionFactory.

Variables sessionmaker session engine : Type.

(** [session_maker], [current_app.config["default_engine"]] and the call
    [db()] of a session maker. *)
Variable session_maker : engine -> sessionmaker.
Variable default_engine : engine.
Variable new_session : sessionmaker -> session.

Record app_context : Type := {
  g_attrs : list (string * sessionmaker);
  makers_built : nat
}.

(** [getattr(g, name, None)] *)
Fixpoint g_getattr (attrs : list (string * sessionmaker)) (name : string)
  : option sessionmaker :=
  match attrs with
  | [] => None
  | (k, v) :: rest => if String.eqb k name then Some v else g_getattr rest name
  end.

(** [g.name = value] *)
Fixpoint g_setattr (attrs : list (string * sessionmaker)) (name : string)
  (value : sessionmaker) : list (string * sessionmaker) :=
  match attrs with
  | [] => [(name, value)]
  | (k, v) :: rest =>
      if String.eqb k name then (k, value) :: rest
      else (k, v) :: g_setattr rest name value
  end.

(** [Session()] *)
Definition Session (ctx : app_context) : app_context * session :=
  match g_getattr (g_attrs ctx) "_Session" with
  | Some db => (ctx, new_session db)
  | None =>
      let db := session_maker default_engine in
      ({| g_attrs := g_setattr (g_attrs ctx) "_session" db;
          makers_built := S (makers_built ctx) |},
       new_session db)
  end.

(** [n] calls of [Session()] in a row. *)
Fixpoint Session_calls (n : nat) (ctx : app_context) : app_context :=
  match n with
  | O => ctx
  | S n' => Session_calls n' (fst (Session ctx))
  end.

End SessionFactory.

Arguments g_attrs {sessionmaker} _.
Arguments makers_built {sessionmaker} _.
Arguments g_getattr {sessionmaker} attrs name.
Arguments g_setattr {sessionmaker} attrs name value.
Arguments Session {sessionmaker session engine} session_maker default_engine
  new_session ctx.
Arguments Session_calls {sessionmaker session engine} session_maker
  default_engine new_session n ctx.

(** ** Helpers of the statements *)

(** [c in s] *)
Fixpoint contains (c : ascii) (s : string) : bool :=
  match s with
  | EmptyString => false
  | String a rest => Ascii.eqb a c || contains c rest
  end.

(** Every character of [s] satisfies [p]. *)
Fixpoint all_chars (p : ascii -> bool) (s : string) : bool :=
  match s with
  | EmptyString => true
  | String a rest => p a && all_chars p rest
  end.

(** The payload as [check_auth] hands it to the decoder:
    [p + ('=' * (len(p) % 4))]. *)
Definition jwt_pad (p : string) : string :=
  (p ++ repeat_char "=" (String.length p mod 4))%string.

(** The items under ["schemas"] of a database-detail document, under
    ["results"] of a databases document and under ["tables"] of a tables
    document. *)
Definition listed_schemas (st : Store) (d : MSDatabase) : list json :=
  map (fun s => JObj (DatabaseSchema_dump (Some s))) (schemas st d).

Definition listed_databases (st : Store) : list json :=
  map (fun d => JObj (Database_dump st (Some d))) (MSDatabase_rows st).

Definition listed_tables (st : Store) (s : MSDatabaseSchema) : list json :=
  map (fun t => JObj (DatabaseTable_dump st (Some t)))
    (tables_of_schema st (sch_id s)).

(** The status with which a view is answered. *)
Definition status_of (view : M response) : Z :=
  status (snd (handle_exception view)).

(** ** Sample catalogs *)

Definition S12_sdss : MSDatabase :=
  {| db_id_ := 1; db_name := "S12_sdss";
     conn_host := "lsst-qserv-dax01"; conn_port := 3360 |}.

Definition sdss_stripe82_00 : MSDatabaseSchema :=
  {| sch_id := 10; sch_db_id := 1; sch_name := "sdss_stripe82_00";
     is_default_schema := true |}.

Definition Object : MSDatabaseTable :=
  {| tbl_id := 100; tbl_schema_id := 10; tbl_name := "Object";
     tbl_description := "The Object table"; tbl_type := "table" |}.

Definition column (id : Z) (name datatype ucd unit : string) (ordinal : Z)
  : MSDatabaseColumn :=
  {| col_id := id; col_table_id := 100; col_name := name;
     col_description := name; col_datatype := datatype; col_ucd := ucd;
     col_unit := unit; col_ordinal := ordinal |}.

(** The catalog of the end-to-end example of the specification; the store
    holds the columns of [Object] in the order of positions 2, 0, 1. *)
Definition sdss : Store :=
  {| MSDatabase_rows := [S12_sdss];
     MSDatabaseSchema_rows := [sdss_stripe82_00];
     MSDatabaseTable_rows := [Object];
     MSDatabaseColumn_rows :=
       [column 3 "decl" "double" "pos.eq.dec" "deg" 2;
        column 1 "objectId" "int" "meta.id;src" "none" 0;
        column 2 "ra" "double" "pos.eq.ra" "deg" 1] |}.

(** A catalog in which the name of the first database is the id of the
    second, written as a string. *)
Definition db_two : MSDatabase :=
  {| db_id_ := 1; db_name := "2"; conn_host := "h1"; conn_port := 3306 |}.

Definition db_x : MSDatabase :=
  {| db_id_ := 2; db_name := "x"; conn_host := "h2"; conn_port := 3306 |}.

Definition main_two : MSDatabaseSchema :=
  {| sch_id := 10; sch_db_id := 1; sch_name := "main";
     is_default_schema := true |}.

Definition main_x : MSDatabaseSchema :=
  {| sch_id := 20; sch_db_id := 2; sch_name := "main";
     is_default_schema := true |}.

Definition Object_two : MSDatabaseTable :=
  {| tbl_id := 100; tbl_schema_id := 10; tbl_name := "Object";
     tbl_description := "Objects of two"; tbl_type := "table" |}.

Definition Object_x : MSDatabaseTable :=
  {| tbl_id := 200; tbl_schema_id := 20; tbl_name := "Object";
     tbl_description := "Objects of x"; tbl_type := "view" |}.

Definition ambiguous : Store :=
  {| MSDatabase_rows := [db_two; db_x];
     MSDatabaseSchema_rows := [main_two; main_x];
     MSDatabaseTable_rows := [Object_two; Object_x];
     MSDatabaseColumn_rows := [] |}.

(** [S12_sdss] with a schema that is not marked as the default. *)
Definition no_default : Store :=
  {| MSDatabase_rows := [S12_sdss];
     MSDatabaseSchema_rows :=
       [{| sch_id := 10; sch_db_id := 1; sch_name := "sdss_stripe82_00";
           is_default_schema := false |}];
     MSDatabaseTable_rows := [Object];
     MSDatabaseColumn_rows := [] |}.

(** [S12_sdss] with two schemas marked as the default. *)
Definition other_default : MSDatabaseSchema :=
  {| sch_id := 11; sch_db_id := 1; sch_name := "sdss_stripe82_01";
     is_default_schema := true |}.

Definition two_defaults : Store :=
  {| MSDatabase_rows := [S12_sdss];
     MSDatabaseSchema_rows := [sdss_stripe82_00; other_default];
     MSDatabaseTable_rows := [Object];
     MSDatabaseColumn_rows := [] |}.

(** A schema in which the name of one table is the id of another. *)
Definition table_100 : MSDatabaseTable :=
  {| tbl_id := 100; tbl_schema_id := 10; tbl_name := "101";
     tbl_description := "named as a number"; tbl_type := "table" |}.

Definition table_101 : MSDatabaseTable :=
  {| tbl_id := 101; tbl_schema_id := 10; tbl_name := "Source";
     tbl_description := "sources"; tbl_type := "table" |}.

Definition ambiguous_tables : Store :=
  {| MSDatabase_rows := [S12_sdss];
     MSDatabaseSchema_rows := [sdss_stripe82_00];
     MSDatabaseTable_rows := [table_100; table_101];
     MSDatabaseColumn_rows := [] |}.

(** * Properties *)

(** ** Decimal tokens *)

Lemma numeric_value_str (i : Z) : numeric_value (str i) = Some i.
Proof.
  unfold numeric_value, str.
  rewrite NilZero.isi.
  - simpl. now rewrite DecimalZ.of_to.
  - destruct i; simpl; try discriminate.
    intros [= H]. now apply (DecimalPos.Unsigned.to_uint_nonnil p).
  - destruct i; simpl; try discriminate.
    intros [= H]. now apply (DecimalPos.Unsigned.to_uint_nonnil p).
Qed.


(** The decimal rendering of an integer is never a name: it starts with a
    digit or with the sign. *)
Lemma SAFE_NAME_REGEX_str (i : Z) : SAFE_NAME_REGEX (str i) = false.
Proof.
  unfold str.
  destruct (Z.to_int i) as [d | d]; [destruct d | ]; reflexivity.
Qed.

(** ** Queries that select one row *)

Lemma filter_none {A} (f : A -> bool) (l : list A) :
  (forall x, In x l -> f x = false) -> filter f l = [].
Proof.
  induction l as [| a l IH]; simpl; intros Hf; [reflexivity |].
  rewrite (Hf a (or_introl eq_refl)). apply IH. auto.
Qed.



(** ** What each view computes *)

Lemma database_eq (st : Store) (db_id : string) :
  database st db_id =
  match hd_error (query_database st db_id) with
  | None => ([StoreQuery], inl AttributeError)
  | Some d =>
      ([StoreQuery; StoreQuery], inr (jsonify (database_document st d)))
  end.
Proof.
  unfold database, first.
  destruct (hd_error (query_database st db_id)); reflexivity.
Qed.

Lemma select_schema_eq (st : Store) (d : MSDatabase)
  (schema_id : option string) :
  select_schema st (Some d) schema_id = scalar (schema_query st d schema_id).
Proof.
  destruct schema_id; unfold select_schema, schema_query, scalar; simpl.
  - now destruct (filter (schema_matches s) (schemas st d)) as [| ? [| ? ?]].
  - now destruct (default_schema st d) as [| ? [| ? ?]].
Qed.

Lemma select_schema_None (st : Store) (schema_id : option string) :
  select_schema st None schema_id = ([], inl AttributeError).
Proof. now destruct schema_id. Qed.

Lemma tables_eq (st : Store) (db_id : string) (schema_id : option string) :
  tables st db_id schema_id =
  match hd_error (query_database st db_id) with
  | None => ([StoreQuery], inl AttributeError)
  | Some d =>
      match schema_query st d schema_id with
      | [] => ([StoreQuery; StoreQuery], inl AttributeError)
      | [s] =>
          ([StoreQuery; StoreQuery; StoreQuery],
           inr (jsonify (tables_document st s)))
      | _ :: _ :: _ => ([StoreQuery; StoreQuery], inl MultipleResultsFound)
      end
  end.
Proof.
  unfold tables, first.
  destruct (hd_error (query_database st db_id)) as [d |]; simpl.
  - rewrite select_schema_eq. unfold scalar.
    now destruct (schema_query st d schema_id) as [| ? [| ? ?]].
  - now rewrite select_schema_None.
Qed.

Lemma table_eq (st : Store) (db_id table_id : string)
  (schema_id : option string) :
  table st db_id table_id schema_id =
  match query_database st db_id with
  | [] => ([StoreQuery], inl AttributeError)
  | [d] =>
      match schema_query st d schema_id with
      | [] => ([StoreQuery; StoreQuery], inl AttributeError)
      | [s] =>
          match filter (table_matches (sch_id s) table_id)
                  (MSDatabaseTable_rows st) with
          | [] =>
              ([StoreQuery; StoreQuery; StoreQuery],
               inr (jsonify (table_document st None)))
          | [t] =>
              ([StoreQuery; StoreQuery; StoreQuery],
               inr (jsonify (table_document st (Some t))))
          | _ :: _ :: _ =>
              ([StoreQuery; StoreQuery; StoreQuery], inl MultipleResultsFound)
          end
      | _ :: _ :: _ => ([StoreQuery; StoreQuery], inl MultipleResultsFound)
      end
  | _ :: _ :: _ => ([StoreQuery], inl MultipleResultsFound)
  end.
Proof.
  unfold table, scalar at 1.
  destruct (query_database st db_id) as [| d [| ? ?]]; simpl.
  - now rewrite select_schema_None.
  - rewrite select_schema_eq. unfold scalar.
    destruct (schema_query st d schema_id) as [| s [| ? ?]]; simpl; auto.
    now destruct (filter (table_matches (sch_id s) table_id)
                    (MSDatabaseTable_rows st)) as [| ? [| ? ?]].
  - reflexivity.
Qed.

(** ** Resolution of the database token *)

Lemma database_matches_iff (token : string) (d : MSDatabase) :
  database_matches token d = true <->
  db_name d = token \/ numeric_value token = Some (db_id_ d).
Proof.
  unfold database_matches, id_eq. rewrite orb_true_iff, String.eqb_eq.
  destruct (numeric_value token) as [n |].
  - rewrite Z.eqb_eq. split.
    + intros [-> | H]; auto.
    + intros [H | [= ->]]; auto.
  - split.
    + intros [H | H]; [discriminate | auto].
    + intros [H | H]; [auto | discriminate].
Qed.



(** ** Path tokens and the name pattern *)

Lemma query_database_malformed (st : Store) (token : string) :
  SAFE_NAME_REGEX token = false ->
  numeric_value token = None ->
  (forall d, In d (MSDatabase_rows st) -> SAFE_NAME_REGEX (db_name d) = true) ->
  query_database st token = [].
Proof.
  intros Hbad Hnum Hsafe. unfold query_database.
  apply filter_none. intros d Hin.
  unfold database_matches, id_eq. rewrite Hnum. simpl.
  destruct (String.eqb_spec (db_name d) token) as [e | _]; [| reflexivity].
  rewrite <- e, (Hsafe d Hin) in Hbad. discriminate.
Qed.

(** C2: a token that fails the name pattern is not rejected before the
    store is asked: every view sends its database lookup (at least one
    query) and is answered 200 or 500, never with a client error.  When the
    token is no decimal either and the names of the catalog follow the
    pattern, the lookup finds nothing, the view dereferences [None], and the
    request is answered 500 after one query.  [SAFE_SCHEMA_PATTERN] and
    [SAFE_TABLE_PATTERN] are compiled and applied nowhere. *)
Theorem malformed_token_reaches_store (st : Store) (token table_id : string)
  (schema_id : option string) :
  SAFE_NAME_REGEX token = false ->
  ((1 <= queries (database st token))%nat
   /\ (1 <= queries (tables st token schema_id))%nat
   /\ (1 <= queries (table st token table_id schema_id))%nat)
  /\ ((status_of (database st token) = 200
       \/ status_of (database st token) = 500)
      /\ (status_of (tables st token schema_id) = 200
          \/ status_of (tables st token schema_id) = 500)
      /\ (status_of (table st token table_id schema_id) = 200
          \/ status_of (table st token table_id schema_id) = 500))
  /\ (numeric_value token = None ->
      (forall d, In d (MSDatabase_rows st) ->
                 SAFE_NAME_REGEX (db_name d) = true) ->
      database st token = ([StoreQuery], inl AttributeError)
      /\ tables st token schema_id = ([StoreQuery], inl AttributeError)
      /\ table st token table_id schema_id
         = ([StoreQuery], inl AttributeError)
      /\ queries (database st token) = 1%nat
      /\ status_of (database st token) = 500).
Proof.
  intros Hbad. unfold status_of. split; [| split].
  - rewrite database_eq, tables_eq, table_eq. unfold queries.
    split; [| split].
    + destruct (hd_error (query_database st token)); simpl; lia.
    + destruct (hd_error (query_database st token)) as [d |]; [| simpl; lia].
      destruct (schema_query st d schema_id) as [| s [| ? ?]]; simpl; lia.
    + destruct (query_database st token) as [| d [| ? ?]]; try (simpl; lia).
      destruct (schema_query st d schema_id) as [| s [| ? ?]];
        try (simpl; lia).
      destruct (filter (table_matches (sch_id s) table_id)
                  (MSDatabaseTable_rows st)) as [| t [| ? ?]]; simpl; lia.
  - rewrite database_eq, tables_eq, table_eq. split; [| split].
    + destruct (hd_error (query_database st token)); [now left | now right].
    + destruct (hd_error (query_database st token)) as [d |];
        [| now right].
      destruct (schema_query st d schema_id) as [| s [| ? ?]];
        [now right | now left | now right].
    + destruct (query_database st token) as [| d [| ? ?]];
        [now right | | now right].
      destruct (schema_query st d schema_id) as [| s [| ? ?]];
        [now right | | now right].
      destruct (filter (table_matches (sch_id s) table_id)
                  (MSDatabaseTable_rows st)) as [| t [| ? ?]];
        [now left | now left | now right].
  - intros Hnum Hsafe.
    rewrite database_eq, tables_eq, table_eq,
      (query_database_malformed st token Hbad Hnum Hsafe).
    repeat split.
Qed.

Lemma malformed_token_reaches_store_witness :
  ((1 <= queries (database sdss "1bad"))%nat
   /\ (1 <= queries (tables sdss "1bad" None))%nat
   /\ (1 <= queries (table sdss "1bad" "Object" None))%nat)
  /\ database sdss "1bad" = ([StoreQuery], inl AttributeError)
  /\ tables sdss "1bad" None = ([StoreQuery], inl AttributeError)
  /\ table sdss "1bad" "Object" None = ([StoreQuery], inl AttributeError)
  /\ queries (database sdss "1bad") = 1%nat
  /\ status_of (database sdss "1bad") = 500.
Proof.
  destruct (malformed_token_reaches_store sdss "1bad" "Object" None eq_refl)
    as [Hq [_ Hmiss]].
  split; [exact Hq |].
  apply Hmiss.
  - reflexivity.
  - simpl. intros d [<- | []]. reflexivity.
Defined.

(** The examples of the specification: ["1bad"] and ["has space"] fail the
    pattern, and the view sends the lookup to the store all the same. *)
Example malformed_tokens_are_looked_up :
  SAFE_NAME_REGEX "1bad" = false
  /\ SAFE_NAME_REGEX "has space" = false
  /\ database sdss "1bad" = ([StoreQuery], inl AttributeError)
  /\ database sdss "has space" = ([StoreQuery], inl AttributeError).
Proof. repeat split. Qed.

(** ** Resolution misses *)

(** C3: when no database matches the token, every view dereferences [None]:
    [AttributeError] leaves the view and the request is answered with status
    500, where the claim and the docstrings of the views promise 404. *)
Theorem database_miss_is_server_error (st : Store)
  (db_id table_id : string) (schema_id : option string) :
  query_database st db_id = [] ->
  database st db_id = ([StoreQuery], inl AttributeError)
  /\ tables st db_id schema_id = ([StoreQuery], inl AttributeError)
  /\ table st db_id table_id schema_id = ([StoreQuery], inl AttributeError)
  /\ status (snd (handle_exception (database st db_id))) = 500
  /\ status (snd (handle_exception (tables st db_id schema_id))) = 500
  /\ status (snd (handle_exception (table st db_id table_id schema_id))) = 500.
Proof.
  intros Hq. rewrite database_eq, tables_eq, table_eq, Hq. simpl.
  repeat split.
Qed.

Lemma database_miss_is_server_error_witness :
  database sdss "nonexistent" = ([StoreQuery], inl AttributeError)
  /\ tables sdss "nonexistent" None = ([StoreQuery], inl AttributeError)
  /\ table sdss "nonexistent" "Object" None
     = ([StoreQuery], inl AttributeError)
  /\ status (snd (handle_exception (database sdss "nonexistent"))) = 500
  /\ status (snd (handle_exception (tables sdss "nonexistent" None))) = 500
  /\ status (snd (handle_exception (table sdss "nonexistent" "Object" None)))
     = 500.
Proof.
  apply (database_miss_is_server_error sdss "nonexistent" "Object" None).
  reflexivity.
Defined.

(** C4: for a resolved database without a default schema and a request
    without a schema token, the schema is [None] and [schema.id] raises
    [AttributeError]: the request is answered with status 500, not with the
    not-found response of the claim. *)
Theorem missing_default_schema_is_server_error (st : Store)
  (db_id table_id : string) (d : MSDatabase) :
  query_database st db_id = [d] ->
  default_schema st d = [] ->
  tables st db_id None = ([StoreQuery; StoreQuery], inl AttributeError)
  /\ table st db_id table_id None
     = ([StoreQuery; StoreQuery], inl AttributeError)
  /\ status (snd (handle_exception (tables st db_id None))) = 500
  /\ status (snd (handle_exception (table st db_id table_id None))) = 500.
Proof.
  intros Hq Hdef. rewrite tables_eq, table_eq, Hq. simpl. rewrite Hdef.
  repeat split.
Qed.

Lemma missing_default_schema_is_server_error_witness :
  tables no_default "S12_sdss" None
  = ([StoreQuery; StoreQuery], inl AttributeError)
  /\ table no_default "S12_sdss" "Object" None
     = ([StoreQuery; StoreQuery], inl AttributeError)
  /\ status (snd (handle_exception (tables no_default "S12_sdss" None))) = 500
  /\ status (snd (handle_exception (table no_default "S12_sdss" "Object" None)))
     = 500.
Proof.
  apply (missing_default_schema_is_server_error no_default "S12_sdss" "Object"
           S12_sdss); reflexivity.
Defined.

(** ** The envelope of database-detail *)

(** C5: the document of a database-detail response is the object of the
    database itself, its fields followed by ["schemas"]; there is no
    ["result"] key around it, which the claim and the docstring of the view
    have, and which [table] has. *)
Theorem database_detail_not_wrapped (st : Store) (db_id : string)
  (resp : response) :
  outcome (database st db_id) = inr resp ->
  exists fields,
    body resp = Some (JObj fields)
    /\ keys fields = ["name"; "host"; "port"; "default_schema"; "schemas"]
    /\ ~ In "result" (keys fields).
Proof.
  rewrite database_eq.
  destruct (hd_error (query_database st db_id)) as [d |]; simpl;
    [intros [= <-] | discriminate].
  eexists. split; [reflexivity |]. split; [reflexivity |].
  simpl. intros H. repeat (destruct H as [H | H]; [discriminate |]).
  exact H.
Qed.

Lemma database_detail_not_wrapped_witness :
  exists fields,
    body (jsonify (database_document sdss S12_sdss)) = Some (JObj fields)
    /\ keys fields = ["name"; "host"; "port"; "default_schema"; "schemas"]
    /\ ~ In "result" (keys fields).
Proof.
  apply (database_detail_not_wrapped sdss "S12_sdss"). reflexivity.
Defined.

(** ** The authorization header *)

(** C6: an [Authorization] header without a second part (["Bearer"]), or
    with a token without a second segment (["Bearer abc"]), makes
    [check_auth] raise [IndexError], which the [except] clause does not
    list: whatever the view, the request is answered with status 500. *)
Theorem check_auth_index_error_escapes
  (urlsafe_b64decode : string -> M string) (json_loads : string -> M json)
  (format_user : json -> string) (view : M response) :
  check_auth urlsafe_b64decode json_loads format_user (Some "Bearer")
  = ([], inl IndexError)
  /\ check_auth urlsafe_b64decode json_loads format_user (Some "Bearer abc")
     = ([], inl IndexError)
  /\ full_dispatch_request urlsafe_b64decode json_loads format_user
       (Some "Bearer") view
     = ([], {| status := 500; body := None |})
  /\ full_dispatch_request urlsafe_b64decode json_loads format_user
       (Some "Bearer abc") view
     = ([], {| status := 500; body := None |}).
Proof. repeat split. Qed.

(** ** Ambiguous database tokens *)

(** C10: when the token selects more than one database row, [first()] gives
    the first of them to [database] and [tables], which answer for that
    database, while [scalar()] raises [MultipleResultsFound] in [table],
    which is answered with status 500. *)
Theorem ambiguous_token_first_versus_scalar (st : Store)
  (db_id table_id : string) (schema_id : option string)
  (d1 d2 : MSDatabase) (others : list MSDatabase) :
  query_database st db_id = d1 :: d2 :: others ->
  first (query_database st db_id) = ([StoreQuery], inr (Some d1))
  /\ outcome (database st db_id) = inr (jsonify (database_document st d1))
  /\ (forall resp,
        outcome (tables st db_id schema_id) = inr resp <->
        exists s, schema_query st d1 schema_id = [s]
                  /\ resp = jsonify (tables_document st s))
  /\ table st db_id table_id schema_id
     = ([StoreQuery], inl MultipleResultsFound)
  /\ status (snd (handle_exception (table st db_id table_id schema_id))) = 500.
Proof.
  intros Hq. rewrite database_eq, tables_eq, table_eq, Hq. simpl.
  repeat split.
  - destruct (schema_query st d1 schema_id) as [| s [| ? ?]]; simpl;
      try discriminate.
    intros [= <-]. now exists s.
  - intros [s [Hs ->]]. now rewrite Hs.
Qed.

Lemma ambiguous_token_first_versus_scalar_witness :
  first (query_database ambiguous "2") = ([StoreQuery], inr (Some db_two))
  /\ outcome (database ambiguous "2")
     = inr (jsonify (database_document ambiguous db_two))
  /\ (forall resp,
        outcome (tables ambiguous "2" None) = inr resp <->
        exists s, schema_query ambiguous db_two None = [s]
                  /\ resp = jsonify (tables_document ambiguous s))
  /\ table ambiguous "2" "Object" None
     = ([StoreQuery], inl MultipleResultsFound)
  /\ status (snd (handle_exception (table ambiguous "2" "Object" None))) = 500.
Proof.
  apply (ambiguous_token_first_versus_scalar ambiguous "2" "Object" None
           db_two db_x []).
  reflexivity.
Defined.

(** ** Columns by ordinal position *)

Lemma insert_column_perm (c : MSDatabaseColumn) (l : list MSDatabaseColumn) :
  Permutation (insert_column c l) (c :: l).
Proof.
  induction l as [| a l IH]; simpl.
  - apply Permutation_refl.
  - destruct (col_ordinal c <=? col_ordinal a).
    + apply Permutation_refl.
    + eapply perm_trans; [apply perm_skip, IH | apply perm_swap].
Qed.

Lemma insert_column_Forall (P : MSDatabaseColumn -> Prop)
  (c : MSDatabaseColumn) (l : list MSDatabaseColumn) :
  P c -> Forall P l -> Forall P (insert_column c l).
Proof.
  intros Hc Hl.
  eapply Permutation_Forall;
    [apply Permutation_sym, insert_column_perm | now constructor].
Qed.

Lemma insert_column_sorted (c : MSDatabaseColumn) (l : list MSDatabaseColumn) :
  StronglySorted ordinal_le l -> StronglySorted ordinal_le (insert_column c l).
Proof.
  induction 1 as [| a l Hs IH Ha]; simpl.
  - repeat constructor.
  - destruct (Z.leb_spec (col_ordinal c) (col_ordinal a)) as [Hle | Hgt].
    + constructor; [now constructor |].
      constructor; [exact Hle |].
      eapply Forall_impl; [| exact Ha].
      unfold ordinal_le. intros b Hb. lia.
    + constructor; [exact IH |].
      apply insert_column_Forall; [unfold ordinal_le; lia | exact Ha].
Qed.

Lemma order_by_ordinal_perm (l : list MSDatabaseColumn) :
  Permutation (order_by_ordinal l) l.
Proof.
  induction l as [| a l IH]; simpl; [constructor |].
  eapply perm_trans; [apply insert_column_perm | now apply perm_skip].
Qed.

Lemma order_by_ordinal_sorted (l : list MSDatabaseColumn) :
  StronglySorted ordinal_le (order_by_ordinal l).
Proof.
  induction l as [| a l IH]; simpl; [constructor |].
  now apply insert_column_sorted.
Qed.

(** The table of the specification: columns stored at positions 2, 0, 1 are
    listed at positions 0, 1, 2. *)
Example columns_2_0_1 :
  map col_ordinal (MSDatabaseColumn_rows sdss) = [2; 0; 1]
  /\ map col_ordinal (columns sdss Object) = [0; 1; 2]
  /\ map col_name (columns sdss Object) = ["objectId"; "ra"; "decl"].
Proof. repeat split. Qed.

(** C7: when the chain resolves to a table, table-detail answers 200 with
    the document of that table, and the columns it lists are the columns of
    the table in the store, rearranged so that ordinal positions never
    decrease, whatever the order of the rows in the store; the serialised
    document lists them in the same order. *)
Theorem table_detail_columns_by_ordinal (st : Store)
  (db_id table_id : string) (schema_id : option string)
  (d : MSDatabase) (s : MSDatabaseSchema) (t : MSDatabaseTable) :
  query_database st db_id = [d] ->
  schema_query st d schema_id = [s] ->
  filter (table_matches (sch_id s) table_id) (MSDatabaseTable_rows st) = [t] ->
  exists cols resp,
    table st db_id table_id schema_id
    = ([StoreQuery; StoreQuery; StoreQuery], inr resp)
    /\ status resp = 200
    /\ body resp
       = Some (JObj [("result",
                      JObj [("name", JStr (tbl_name t));
                            ("description", JStr (tbl_description t));
                            ("table_type", JStr (tbl_type t));
                            ("columns",
                             JList (map (fun c => JObj (DatabaseColumn_dump c))
                                      cols))])])
    /\ wire_body resp
       = Some (JObj [("result",
                      JObj [("columns",
                             JList (map (fun c =>
                                           sort_keys (JObj (DatabaseColumn_dump c)))
                                      cols));
                            ("description", JStr (tbl_description t));
                            ("name", JStr (tbl_name t));
                            ("table_type", JStr (tbl_type t))])])
    /\ Permutation cols
         (filter (fun c => Z.eqb (col_table_id c) (tbl_id t))
            (MSDatabaseColumn_rows st))
    /\ StronglySorted ordinal_le cols.
Proof.
  intros Hq Hs Ht. rewrite table_eq, Hq, Hs, Ht.
  exists (columns st t), (jsonify (table_document st (Some t))).
  split; [reflexivity |]. split; [reflexivity |]. split; [reflexivity |].
  split; [| split].
  - unfold wire_body, table_document. simpl. now rewrite map_map.
  - apply order_by_ordinal_perm.
  - apply order_by_ordinal_sorted.
Qed.

Lemma table_detail_columns_by_ordinal_witness :
  exists cols resp,
    table sdss "S12_sdss" "Object" None
    = ([StoreQuery; StoreQuery; StoreQuery], inr resp)
    /\ status resp = 200
    /\ body resp
       = Some (JObj [("result",
                      JObj [("name", JStr (tbl_name Object));
                            ("description", JStr (tbl_description Object));
                            ("table_type", JStr (tbl_type Object));
                            ("columns",
                             JList (map (fun c => JObj (DatabaseColumn_dump c))
                                      cols))])])
    /\ wire_body resp
       = Some (JObj [("result",
                      JObj [("columns",
                             JList (map (fun c =>
                                           sort_keys (JObj (DatabaseColumn_dump c)))
                                      cols));
                            ("description", JStr (tbl_description Object));
                            ("name", JStr (tbl_name Object));
                            ("table_type", JStr (tbl_type Object))])])
    /\ Permutation cols
         (filter (fun c => Z.eqb (col_table_id c) (tbl_id Object))
            (MSDatabaseColumn_rows sdss))
    /\ StronglySorted ordinal_le cols.
Proof.
  apply (table_detail_columns_by_ordinal sdss "S12_sdss" "Object" None
           S12_sdss sdss_stripe82_00 Object); reflexivity.
Defined.

(** ** Tables of the resolved schema *)

Lemma tables_of_schema_scoped (st : Store) (schema_id : Z) :
  Forall (fun t => In t (MSDatabaseTable_rows st)
                   /\ tbl_schema_id t = schema_id)
    (tables_of_schema st schema_id).
Proof.
  apply Forall_forall. intros t Hin.
  apply filter_In in Hin. destruct Hin as [Hin He].
  split; [exact Hin | now apply Z.eqb_eq].
Qed.

Lemma table_matches_iff (schema_id : Z) (table_id : string)
  (t : MSDatabaseTable) :
  table_matches schema_id table_id t = true <->
  tbl_schema_id t = schema_id
  /\ (tbl_name t = table_id \/ numeric_value table_id = Some (tbl_id t)).
Proof.
  unfold table_matches, id_eq.
  rewrite andb_true_iff, orb_true_iff, Z.eqb_eq, String.eqb_eq.
  destruct (numeric_value table_id) as [n |].
  - rewrite Z.eqb_eq. split.
    + intros [H [-> | ->]]; auto.
    + intros [H [-> | [= ->]]]; auto.
  - split.
    + intros [H [-> | ?]]; [auto | discriminate].
    + intros [H [-> | ?]]; [auto | discriminate].
Qed.

(** C8: a tables-list response is the document of the resolved schema with
    the tables of the store whose [schema_id] is the id of that schema, and
    no others; a table-detail response describes no table, or a table of the
    store that matches the token and whose [schema_id] is the id of the
    resolved schema. *)
Theorem table_lookups_scoped_to_schema (st : Store)
  (db_id table_id : string) (schema_id : option string) :
  (forall resp,
      outcome (tables st db_id schema_id) = inr resp ->
      exists d s,
        hd_error (query_database st db_id) = Some d
        /\ schema_query st d schema_id = [s]
        /\ resp = jsonify (tables_document st s)
        /\ Forall (fun t => In t (MSDatabaseTable_rows st)
                            /\ tbl_schema_id t = sch_id s)
             (tables_of_schema st (sch_id s))
        /\ (forall t, In t (MSDatabaseTable_rows st) ->
                      tbl_schema_id t <> sch_id s ->
                      ~ In t (tables_of_schema st (sch_id s))))
  /\
  (forall resp,
      outcome (table st db_id table_id schema_id) = inr resp ->
      exists d s,
        query_database st db_id = [d]
        /\ schema_query st d schema_id = [s]
        /\ (resp = jsonify (table_document st None)
            \/ exists t,
                 filter (table_matches (sch_id s) table_id)
                   (MSDatabaseTable_rows st) = [t]
                 /\ In t (MSDatabaseTable_rows st)
                 /\ tbl_schema_id t = sch_id s
                 /\ (tbl_name t = table_id
                     \/ numeric_value table_id = Some (tbl_id t))
                 /\ resp = jsonify (table_document st (Some t)))).
Proof.
  split; intros resp.
  - rewrite tables_eq.
    destruct (hd_error (query_database st db_id)) as [d |] eqn:Hd;
      try discriminate.
    destruct (schema_query st d schema_id) as [| s [| ? ?]] eqn:Hs;
      try discriminate.
    simpl. intros [= <-]. exists d, s.
    split; [reflexivity |]. split; [exact Hs |]. split; [reflexivity |].
    split.
    + apply tables_of_schema_scoped.
    + intros t _ Hne Hin. apply filter_In in Hin.
      destruct Hin as [_ He]. now apply Z.eqb_eq in He.
  - rewrite table_eq.
    destruct (query_database st db_id) as [| d [| ? ?]] eqn:Hq;
      try discriminate.
    destruct (schema_query st d schema_id) as [| s [| ? ?]] eqn:Hs;
      try discriminate.
    destruct (filter (table_matches (sch_id s) table_id)
                (MSDatabaseTable_rows st)) as [| t [| ? ?]] eqn:Hf;
      try discriminate; simpl; intros [= <-]; exists d, s;
      (split; [reflexivity |]); (split; [exact Hs |]).
    + now left.
    + right. exists t.
      assert (Hin : In t (filter (table_matches (sch_id s) table_id)
                            (MSDatabaseTable_rows st)))
        by (rewrite Hf; now left).
      apply filter_In in Hin. destruct Hin as [Hin Hm].
      apply table_matches_iff in Hm. destruct Hm as [Hsch Htok].
      repeat split; auto.
Qed.

Lemma table_lookups_scoped_to_schema_witness :
  (exists d s,
      hd_error (query_database ambiguous "x") = Some d
      /\ schema_query ambiguous d None = [s]
      /\ jsonify (tables_document ambiguous main_x)
         = jsonify (tables_document ambiguous s)
      /\ Forall (fun t => In t (MSDatabaseTable_rows ambiguous)
                          /\ tbl_schema_id t = sch_id s)
           (tables_of_schema ambiguous (sch_id s))
      /\ (forall t, In t (MSDatabaseTable_rows ambiguous) ->
                    tbl_schema_id t <> sch_id s ->
                    ~ In t (tables_of_schema ambiguous (sch_id s))))
  /\
  (exists d s,
      query_database ambiguous "x" = [d]
      /\ schema_query ambiguous d None = [s]
      /\ (jsonify (table_document ambiguous (Some Object_x))
          = jsonify (table_document ambiguous None)
          \/ exists t,
               filter (table_matches (sch_id s) "Object")
                 (MSDatabaseTable_rows ambiguous) = [t]
               /\ In t (MSDatabaseTable_rows ambiguous)
               /\ tbl_schema_id t = sch_id s
               /\ (tbl_name t = "Object"
                   \/ numeric_value "Object" = Some (tbl_id t))
               /\ jsonify (table_document ambiguous (Some Object_x))
                  = jsonify (table_document ambiguous (Some t)))).
Proof.
  split.
  - apply (proj1 (table_lookups_scoped_to_schema ambiguous "x" "Object" None)).
    reflexivity.
  - apply (proj2 (table_lookups_scoped_to_schema ambiguous "x" "Object" None)).
    reflexivity.
Defined.

(** ** Field order of the serialised documents *)














(** The sample catalog: database-detail is built as name, host, port,
    default_schema, schemas and sent as default_schema, host, name, port,
    schemas. *)
Example database_detail_wire_keys :
  exists inserted sent,
    body (jsonify (database_document sdss S12_sdss)) = Some (JObj inserted)
    /\ wire_body (jsonify (database_document sdss S12_sdss))
       = Some (JObj sent)
    /\ keys inserted = ["name"; "host"; "port"; "default_schema"; "schemas"]
    /\ keys sent = ["default_schema"; "host"; "name"; "port"; "schemas"].
Proof. do 2 eexists. repeat split. Qed.



(** * Further properties of the module *)

(** ** The session factory *)

Lemma g_getattr_setattr_other {A} (attrs : list (string * A))
  (name other : string) (value : A) :
  name <> other ->
  g_getattr (g_setattr attrs name value) other = g_getattr attrs other.
Proof.
  intros Hne. induction attrs as [| [k v] rest IH]; simpl.
  - destruct (String.eqb_spec name other); [contradiction | reflexivity].
  - destruct (String.eqb_spec k name) as [-> | Hk]; simpl.
    + destruct (String.eqb_spec name other); [contradiction | reflexivity].
    + now rewrite IH.
Qed.

Lemma g_getattr_setattr_same {A} (attrs : list (string * A))
  (name : string) (value : A) :
  g_getattr (g_setattr attrs name value) name = Some value.
Proof.
  induction attrs as [| [k v] rest IH]; simpl.
  - now rewrite String.eqb_refl.
  - destruct (String.eqb_spec k name) as [-> | Hk]; simpl.
    + now rewrite String.eqb_refl.
    + destruct (String.eqb_spec k name); [contradiction | exact IH].
Qed.

(** X1: [Session()] looks for the attribute [_Session] and stores the maker
    under [_session]: in a context without [_Session], every call builds a
    new session maker, and the attribute that is read stays absent, however
    many calls are made. *)
Theorem Session_never_reuses_maker {sessionmaker session engine : Type}
  (session_maker : engine -> sessionmaker) (default_engine : engine)
  (new_session : sessionmaker -> session)
  (n : nat) (ctx : app_context sessionmaker) :
  g_getattr (g_attrs ctx) "_Session" = None ->
  let ctx' := Session_calls session_maker default_engine new_session n ctx in
  makers_built ctx' = (makers_built ctx + n)%nat
  /\ g_getattr (g_attrs ctx') "_Session" = None
  /\ ((0 < n)%nat ->
      g_getattr (g_attrs ctx') "_session" = Some (session_maker default_engine)).
Proof.
  revert ctx. induction n as [| n IH]; intros ctx Hnone; simpl.
  - repeat split; [lia | exact Hnone | lia].
  - assert (Hstep : fst (Session session_maker default_engine new_session ctx)
                    = {| g_attrs := g_setattr (g_attrs ctx) "_session"
                                      (session_maker default_engine);
                         makers_built := S (makers_built ctx) |}).
    { unfold Session. now rewrite Hnone. }
    rewrite Hstep. clear Hstep.
    set (ctx1 := {| g_attrs := _; makers_built := _ |}).
    assert (H1 : g_getattr (g_attrs ctx1) "_Session" = None).
    { simpl. rewrite g_getattr_setattr_other; [exact Hnone | discriminate]. }
    destruct (IH ctx1 H1) as [Hb [Hn Hs]]. repeat split.
    + rewrite Hb. simpl. lia.
    + exact Hn.
    + intros _. destruct n as [| n'].
      * simpl. apply g_getattr_setattr_same.
      * apply Hs. lia.
Qed.

Lemma Session_never_reuses_maker_witness :
  let ctx0 : app_context nat := {| g_attrs := []; makers_built := 0 |} in
  let ctx' := Session_calls (fun e : nat => e) 7%nat (fun m : nat => m) 3 ctx0 in
  makers_built ctx' = (makers_built ctx0 + 3)%nat
  /\ g_getattr (g_attrs ctx') "_Session" = None
  /\ ((0 < 3)%nat -> g_getattr (g_attrs ctx') "_session" = Some 7%nat).
Proof.
  apply (Session_never_reuses_maker (fun e : nat => e) 7%nat (fun m : nat => m)
           3 {| g_attrs := []; makers_built := 0 |}).
  reflexivity.
Defined.

(** ** The authorization hook *)

Lemma bind_ret {A B} (a : A) (f : A -> M B) : bind (ret a) f = f a.
Proof. unfold bind, ret. now destruct (f a). Qed.

Lemma split_nonempty (sep : ascii) (s : string) : split sep s <> [].
Proof.
  destruct s as [| c rest]; simpl; [discriminate |].
  destruct (Ascii.eqb c sep); [discriminate |].
  destruct (split sep rest); discriminate.
Qed.

(** [s.split(sep)] has a second item exactly when [sep] occurs in [s]. *)
Lemma split_second (sep : ascii) (s : string) :
  nth_error (split sep s) 1 = None <-> contains sep s = false.
Proof.
  induction s as [| c rest IH]; simpl.
  - split; reflexivity.
  - destruct (Ascii.eqb c sep); simpl.
    + pose proof (split_nonempty sep rest) as Hne.
      destruct (split sep rest); [contradiction |].
      split; discriminate.
    + pose proof (split_nonempty sep rest) as Hne.
      destruct (split sep rest) as [| w ws]; [contradiction |].
      exact IH.
Qed.

(** The hook once the header has a token with a payload segment. *)
Lemma check_auth_payload
  (urlsafe_b64decode : string -> M string) (json_loads : string -> M json)
  (format_user : json -> string) (auth_header atk p : string) :
  auth_header <> EmptyString ->
  nth_error (split " " auth_header) 1 = Some atk ->
  nth_error (split "." atk) 1 = Some p ->
  check_auth urlsafe_b64decode json_loads format_user (Some auth_header)
  = try_except
      (decoded <- urlsafe_b64decode (jwt_pad p) ;;
       loaded <- json_loads decoded ;;
       user_name <- json_get loaded "uid" ;;
       log_info ("JWT received for user: " ++ format_user user_name)%string)
      jwt_errors
      (log_info "unexpected error in JWT").
Proof.
  intros Hne Hatk Hp.
  destruct auth_header as [| c rest]; [contradiction |].
  unfold check_auth, getitem. rewrite Hatk, bind_ret, Hp, bind_ret.
  reflexivity.
Qed.

(** X2: when the header has a token with a payload segment, the decoder and
    the JSON parser raise only the classes of the [except] clause, and the
    parser returns objects, the hook never raises: it ends with one log
    line, and the request is answered as the view answers. *)
Theorem check_auth_swallows_decode_errors
  (urlsafe_b64decode : string -> M string) (json_loads : string -> M json)
  (format_user : json -> string) (auth_header atk p : string)
  (view : M response) :
  auth_header <> EmptyString ->
  nth_error (split " " auth_header) 1 = Some atk ->
  nth_error (split "." atk) 1 = Some p ->
  (forall e, outcome (urlsafe_b64decode (jwt_pad p)) = inl e ->
             jwt_errors e = true) ->
  (forall s e, outcome (json_loads s) = inl e -> jwt_errors e = true) ->
  (forall s j, outcome (json_loads s) = inr j -> exists d, j = JObj d) ->
  let hook :=
    check_auth urlsafe_b64decode json_loads format_user (Some auth_header) in
  outcome hook = inr tt
  /\ (exists tr msg,
        events hook = tr ++ [LogInfo msg]
        /\ (msg = "unexpected error in JWT"
            \/ exists user_name,
                 msg = ("JWT received for user: " ++ format_user user_name)%string))
  /\ snd (full_dispatch_request urlsafe_b64decode json_loads format_user
            (Some auth_header) view)
     = snd (handle_exception view).
Proof.
  intros Hne Hatk Hp Hb64 Hjl Hobj hook.
  assert (Hhook : outcome hook = inr tt
                  /\ exists tr msg,
                       events hook = tr ++ [LogInfo msg]
                       /\ (msg = "unexpected error in JWT"
                           \/ exists user_name,
                                msg = ("JWT received for user: "
                                       ++ format_user user_name)%string)).
  { unfold hook. rewrite (check_auth_payload _ _ _ _ atk p Hne Hatk Hp).
    destruct (urlsafe_b64decode (jwt_pad p)) as [tr1 [e1 | dec]] eqn:Hd.
    - simpl. rewrite (Hb64 e1 eq_refl). simpl. split; [reflexivity |].
      exists tr1, "unexpected error in JWT". split; [reflexivity | now left].
    - simpl. destruct (json_loads dec) as [tr2 [e2 | j]] eqn:Hl.
      + pose proof (Hjl dec e2) as He. rewrite Hl in He.
        simpl. rewrite (He eq_refl). simpl. split; [reflexivity |].
        exists (tr1 ++ tr2), "unexpected error in JWT".
        split; [reflexivity | now left].
      + pose proof (Hobj dec j) as Hj. rewrite Hl in Hj.
        destruct (Hj eq_refl) as [d ->]. simpl. split; [reflexivity |].
        exists (tr1 ++ tr2),
          ("JWT received for user: " ++ format_user (dict_get d "uid"))%string.
        split; [now rewrite app_assoc | right; now eexists]. }
  destruct Hhook as [Hout Hev]. split; [exact Hout |]. split; [exact Hev |].
  unfold full_dispatch_request. fold hook.
  destruct hook as [tr [e | []]]; simpl in Hout; [discriminate |].
  unfold bind. destruct view as [trv [ev | r]]; reflexivity.
Qed.

Lemma check_auth_swallows_decode_errors_witness :
  let b64 := fun s : string => ret s in
  let loads := fun _ : string => ret (JObj [("uid", JStr "alice")]) in
  let fmt := fun j => match j with JStr s => s | _ => "None" end in
  let hook := check_auth b64 loads fmt (Some "Bearer h.p.s") in
  outcome hook = inr tt
  /\ (exists tr msg,
        events hook = tr ++ [LogInfo msg]
        /\ (msg = "unexpected error in JWT"
            \/ exists user_name,
                 msg = ("JWT received for user: " ++ fmt user_name)%string))
  /\ snd (full_dispatch_request b64 loads fmt (Some "Bearer h.p.s")
            (database sdss "1"))
     = snd (handle_exception (database sdss "1")).
Proof.
  apply (check_auth_swallows_decode_errors
           (fun s : string => ret s)
           (fun _ : string => ret (JObj [("uid", JStr "alice")]))
           (fun j => match j with JStr s => s | _ => "None" end)
           "Bearer h.p.s" "h.p.s" "p" (database sdss "1")).
  - discriminate.
  - reflexivity.
  - reflexivity.
  - simpl. discriminate.
  - simpl. discriminate.
  - simpl. intros _ j [= <-]. eexists. reflexivity.
Defined.

(** X3: for decoders and parsers that do not raise [IndexError] themselves,
    the hook raises [IndexError] exactly when the header has no space, or
    the word after the first space has no dot. *)
Theorem check_auth_index_error_iff
  (urlsafe_b64decode : string -> M string) (json_loads : string -> M json)
  (format_user : json -> string) (auth_header : string) :
  auth_header <> EmptyString ->
  (forall s, outcome (urlsafe_b64decode s) <> inl IndexError) ->
  (forall s, outcome (json_loads s) <> inl IndexError) ->
  outcome (check_auth urlsafe_b64decode json_loads format_user
             (Some auth_header)) = inl IndexError
  <-> contains " " auth_header = false
      \/ exists atk, nth_error (split " " auth_header) 1 = Some atk
                     /\ contains "." atk = false.
Proof.
  intros Hne Hb64 Hjl.
  destruct (nth_error (split " " auth_header) 1) as [atk |] eqn:Hatk.
  - destruct (nth_error (split "." atk) 1) as [p |] eqn:Hp.
    + rewrite (check_auth_payload _ _ _ _ atk p Hne Hatk Hp). split.
      * intros H. exfalso.
        destruct (urlsafe_b64decode (jwt_pad p)) as [tr1 [e1 | dec]] eqn:Hd.
        -- pose proof (Hb64 (jwt_pad p)) as Hn. rewrite Hd in Hn.
           simpl in H. destruct e1; simpl in H; try discriminate.
           now apply Hn.
        -- simpl in H.
           destruct (json_loads dec) as [tr2 [e2 | j]] eqn:Hl.
           ++ pose proof (Hjl dec) as Hn. rewrite Hl in Hn.
              simpl in H. destruct e2; simpl in H; try discriminate.
              now apply Hn.
           ++ destruct j; simpl in H; discriminate.
      * intros [Hc | [atk' [[= <-] Hc]]].
        -- apply split_second in Hc. congruence.
        -- apply split_second in Hc. congruence.
    + split; [intros _ | intros _].
      * right. exists atk. split; [reflexivity | now apply split_second].
      * destruct auth_header as [| c rest]; [contradiction |].
        unfold check_auth, getitem. rewrite Hatk, bind_ret, Hp. reflexivity.
  - split; [intros _ | intros _].
    + left. now apply split_second.
    + destruct auth_header as [| c rest]; [contradiction |].
      unfold check_auth, getitem. rewrite Hatk. reflexivity.
Qed.

Lemma check_auth_index_error_iff_witness :
  outcome (check_auth (fun s : string => ret s)
             (fun _ : string => raise ValueError)
             (fun _ : json => "None") (Some "Bearer abc")) = inl IndexError
  <-> contains " " "Bearer abc" = false
      \/ exists atk, nth_error (split " " "Bearer abc") 1 = Some atk
                     /\ contains "." atk = false.
Proof.
  apply (check_auth_index_error_iff (fun s : string => ret s)
           (fun _ : string => raise ValueError) (fun _ : json => "None")
           "Bearer abc").
  - discriminate.
  - simpl. discriminate.
  - simpl. discriminate.
Defined.

(** X4: a payload that decodes to JSON but not to an object (a list, a
    number, a string, [null]) makes [.get] raise [AttributeError], which the
    [except] clause does not list: the request is answered with status 500. *)
Theorem check_auth_non_object_payload
  (urlsafe_b64decode : string -> M string) (json_loads : string -> M json)
  (format_user : json -> string) (auth_header atk p decoded : string)
  (tr1 tr2 : list event) (loaded : json) (view : M response) :
  auth_header <> EmptyString ->
  nth_error (split " " auth_header) 1 = Some atk ->
  nth_error (split "." atk) 1 = Some p ->
  urlsafe_b64decode (jwt_pad p) = (tr1, inr decoded) ->
  json_loads decoded = (tr2, inr loaded) ->
  (forall d, loaded <> JObj d) ->
  outcome (check_auth urlsafe_b64decode json_loads format_user
             (Some auth_header)) = inl AttributeError
  /\ status (snd (full_dispatch_request urlsafe_b64decode json_loads
                    format_user (Some auth_header) view)) = 500.
Proof.
  intros Hne Hatk Hp Hd Hl Hobj.
  unfold full_dispatch_request.
  rewrite (check_auth_payload _ _ _ _ atk p Hne Hatk Hp), Hd. simpl.
  rewrite Hl. simpl.
  destruct loaded; simpl; try (split; reflexivity).
  now destruct (Hobj fields).
Qed.

Lemma check_auth_non_object_payload_witness :
  outcome (check_auth (fun s : string => ret s)
             (fun _ : string => ret (JList []))
             (fun _ : json => "None") (Some "Bearer h.p.s")) = inl AttributeError
  /\ status (snd (full_dispatch_request (fun s : string => ret s)
                    (fun _ : string => ret (JList []))
                    (fun _ : json => "None") (Some "Bearer h.p.s")
                    (databases sdss))) = 500.
Proof.
  apply (check_auth_non_object_payload (fun s : string => ret s)
           (fun _ : string => ret (JList [])) (fun _ : json => "None")
           "Bearer h.p.s" "h.p.s" "p" (jwt_pad "p") [] [] (JList [])
           (databases sdss)).
  - discriminate.
  - reflexivity.
  - reflexivity.
  - reflexivity.
  - reflexivity.
  - discriminate.
Defined.

(** ** The padding of the payload *)

Lemma length_append (a b : string) :
  String.length (a ++ b)%string = (String.length a + String.length b)%nat.
Proof. induction a as [| c a IH]; simpl; [reflexivity | now rewrite IH]. Qed.

Lemma length_repeat_char (c : ascii) (n : nat) :
  String.length (repeat_char c n) = n.
Proof. induction n as [| n IH]; simpl; [reflexivity | now rewrite IH]. Qed.

(** X5: the padding adds [len(p) % 4] characters, not the number that is
    missing to a multiple of four: the padded payload has a length that is a
    multiple of four exactly when the length of the payload is 0 or 2 modulo
    4. *)
Theorem jwt_pad_length (p : string) :
  String.length (jwt_pad p)
  = (String.length p + String.length p mod 4)%nat
  /\ ((String.length (jwt_pad p) mod 4 = 0)%nat
      <-> (String.length p mod 4 = 0 \/ String.length p mod 4 = 2)%nat).
Proof.
  unfold jwt_pad. rewrite length_append, length_repeat_char.
  split; [reflexivity |].
  pose proof (Nat.div_mod_eq (String.length p) 4) as Hdm.
  pose proof (Nat.mod_upper_bound (String.length p) 4) as Hub.
  set (n := String.length p) in *. set (r := (n mod 4)%nat) in *.
  set (q := (n / 4)%nat) in *.
  assert (Hr : (r < 4)%nat) by (apply Hub; lia).
  assert (Hmod : ((n + r) mod 4 = (2 * r) mod 4)%nat).
  { replace (n + r)%nat with (2 * r + q * 4)%nat by lia.
    apply Nat.Div0.mod_add. }
  rewrite Hmod.
  destruct r as [| [| [| [| r]]]]; simpl; try lia.
Qed.

(** ** What the name pattern accepts *)

Lemma name_rest_iff (s : string) :
  name_rest s = true <->
  exists body,
    all_chars name_char body = true
    /\ (s = body \/ s = (body ++ String "010" EmptyString)%string).
Proof.
  split.
  - induction s as [| c rest IH]; simpl.
    + intros _. exists EmptyString. split; [reflexivity | now left].
    + destruct (name_char c) eqn:Hc.
      * intros H. destruct (IH H) as [body [Hb Hs]].
        exists (String c body). simpl. rewrite Hc, Hb. split; [reflexivity |].
        destruct Hs as [-> | ->]; [now left | now right].
      * rewrite andb_true_iff, Ascii.eqb_eq, String.eqb_eq.
        intros [-> ->]. exists EmptyString. split; [reflexivity | now right].
  - intros [body [Hb Hs]]. revert s Hs.
    induction body as [| a body IH]; intros s Hs.
    + destruct Hs as [-> | ->]; reflexivity.
    + simpl in Hb. apply andb_true_iff in Hb. destruct Hb as [Ha Hb].
      destruct Hs as [-> | ->]; simpl; rewrite Ha; apply (IH Hb); auto.
Qed.

(** X6: the pattern, matched from the start of a token, accepts exactly a
    first character among letters, underscore and dollar, followed by
    letters, digits, underscores and dollars, and allows one newline after
    them. *)
Theorem SAFE_NAME_REGEX_accepts (token : string) :
  SAFE_NAME_REGEX token = true <->
  exists c body,
    name_start c = true
    /\ all_chars name_char body = true
    /\ (token = String c body
        \/ token = String c (body ++ String "010" EmptyString)).
Proof.
  destruct token as [| c rest]; simpl.
  - split; [discriminate |]. intros [c [body [_ [_ [H | H]]]]]; discriminate.
  - rewrite andb_true_iff, name_rest_iff. split.
    + intros [Hc [body [Hb Hs]]]. exists c, body.
      split; [exact Hc |]. split; [exact Hb |].
      destruct Hs as [-> | ->]; [now left | now right].
    + intros [c' [body [Hc [Hb Hs]]]].
      destruct Hs as [[= -> ->] | [= -> ->]];
        (split; [exact Hc | exists body; split; [exact Hb | auto]]).
Qed.

Lemma numeric_value_not_safe (token : string) (n : Z) :
  numeric_value token = Some n -> SAFE_NAME_REGEX token = false.
Proof.
  unfold numeric_value, NilZero.int_of_string.
  destruct token as [| a rest]; [discriminate |].
  destruct (Ascii.eqb_spec a "-") as [-> | _]; [reflexivity |].
  unfold NilZero.uint_of_string. simpl NilEmpty.uint_of_string.
  destruct (NilEmpty.uint_of_string rest) as [d |];
    [| discriminate].
  destruct a as [[] [] [] [] [] [] [] []]; simpl; try reflexivity;
    discriminate.
Qed.

(** X7: a token with a numeric value never matches the name pattern: names
    that follow the pattern and ids written as decimals cannot be confused. *)
Theorem numeric_token_is_not_a_name (token : string) (n : Z) :
  numeric_value token = Some n -> SAFE_NAME_REGEX token = false.
Proof. apply numeric_value_not_safe. Qed.

Lemma numeric_token_is_not_a_name_witness :
  SAFE_NAME_REGEX "42" = false.
Proof.
  apply (numeric_token_is_not_a_name "42" 42). reflexivity.
Defined.

(** ** Catalogs whose names follow the pattern *)

Lemma filter_at_most_one {A K} (key : A -> K) (f : A -> bool) (l : list A)
  (k : K) :
  NoDup (map key l) ->
  (forall a, In a l -> f a = true -> key a = k) ->
  (List.length (filter f l) <= 1)%nat.
Proof.
  induction l as [| a l IH]; simpl; intros Hnd Hk; [lia |].
  inversion Hnd as [| ? ? Hnotin Hnd']; subst.
  destruct (f a) eqn:Hfa.
  - rewrite (filter_none f l); [simpl; lia |].
    intros b Hb. destruct (f b) eqn:Hfb; [| reflexivity].
    exfalso. apply Hnotin.
    rewrite (Hk a (or_introl eq_refl) Hfa), <- (Hk b (or_intror Hb) Hfb).
    now apply in_map.
  - apply IH; auto.
Qed.

Lemma at_most_one_In {A} (l : list A) (d : A) :
  (List.length l <= 1)%nat -> In d l -> l = [d].
Proof.
  destruct l as [| a [| b l]]; simpl; intros Hlen Hin.
  - contradiction.
  - destruct Hin as [-> | []]. reflexivity.
  - lia.
Qed.

Lemma query_database_at_most_one (st : Store) (token : string) :
  NoDup (map db_id_ (MSDatabase_rows st)) ->
  NoDup (map db_name (MSDatabase_rows st)) ->
  (forall d, In d (MSDatabase_rows st) -> SAFE_NAME_REGEX (db_name d) = true) ->
  (List.length (query_database st token) <= 1)%nat.
Proof.
  intros Hids Hnames Hsafe. unfold query_database.
  destruct (numeric_value token) as [n |] eqn:Hn.
  - apply (filter_at_most_one db_id_ _ _ n); [exact Hids |].
    intros d Hin Hm. apply database_matches_iff in Hm.
    destruct Hm as [Hname | Hid].
    + pose proof (numeric_value_not_safe token n Hn) as Hno.
      rewrite <- Hname, (Hsafe d Hin) in Hno. discriminate.
    + rewrite Hn in Hid. now injection Hid.
  - apply (filter_at_most_one db_name _ _ token); [exact Hnames |].
    intros d Hin Hm. apply database_matches_iff in Hm.
    destruct Hm as [Hname | Hid]; [exact Hname | congruence].
Qed.

(** X8: in a catalog with unique ids and unique names whose names all
    follow the pattern, no token selects more than one database: [first()]
    and [scalar()] give the same result, so the three views resolve the same
    database, and [table] does not raise [MultipleResultsFound] on the
    database. *)
Theorem conforming_names_resolve_uniquely (st : Store) (token : string) :
  NoDup (map db_id_ (MSDatabase_rows st)) ->
  NoDup (map db_name (MSDatabase_rows st)) ->
  (forall d, In d (MSDatabase_rows st) -> SAFE_NAME_REGEX (db_name d) = true) ->
  (List.length (query_database st token) <= 1)%nat
  /\ first (query_database st token) = scalar (query_database st token)
  /\ outcome (scalar (query_database st token)) <> inl MultipleResultsFound.
Proof.
  intros Hids Hnames Hsafe.
  pose proof (query_database_at_most_one st token Hids Hnames Hsafe) as Hlen.
  split; [exact Hlen |].
  destruct (query_database st token) as [| d [| d' l]]; simpl in *.
  - split; [reflexivity | discriminate].
  - split; [reflexivity | discriminate].
  - lia.
Qed.

Lemma conforming_names_resolve_uniquely_witness :
  (List.length (query_database sdss "1") <= 1)%nat
  /\ first (query_database sdss "1") = scalar (query_database sdss "1")
  /\ outcome (scalar (query_database sdss "1")) <> inl MultipleResultsFound.
Proof.
  apply (conforming_names_resolve_uniquely sdss "1").
  - simpl. constructor; [intros [] | constructor].
  - simpl. constructor; [intros [] | constructor].
  - simpl. intros d [<- | []]. reflexivity.
Defined.

(** X9: in such a catalog the id of a database, written as a decimal, and
    its name address the same documents in all three views. *)
Theorem id_and_name_address_the_same (st : Store) (d : MSDatabase)
  (table_id : string) (schema_id : option string) :
  NoDup (map db_id_ (MSDatabase_rows st)) ->
  NoDup (map db_name (MSDatabase_rows st)) ->
  (forall d', In d' (MSDatabase_rows st) ->
              SAFE_NAME_REGEX (db_name d') = true) ->
  In d (MSDatabase_rows st) ->
  query_database st (str (db_id_ d)) = [d]
  /\ query_database st (db_name d) = [d]
  /\ database st (str (db_id_ d)) = database st (db_name d)
  /\ tables st (str (db_id_ d)) schema_id = tables st (db_name d) schema_id
  /\ table st (str (db_id_ d)) table_id schema_id
     = table st (db_name d) table_id schema_id.
Proof.
  intros Hids Hnames Hsafe Hin.
  assert (Hid : query_database st (str (db_id_ d)) = [d]).
  { apply at_most_one_In;
      [now apply query_database_at_most_one |].
    apply filter_In. split; [exact Hin |].
    apply database_matches_iff. right. apply numeric_value_str. }
  assert (Hname : query_database st (db_name d) = [d]).
  { apply at_most_one_In;
      [now apply query_database_at_most_one |].
    apply filter_In. split; [exact Hin |].
    apply database_matches_iff. now left. }
  rewrite !database_eq, !tables_eq, !table_eq, Hid, Hname.
  repeat split.
Qed.

Lemma id_and_name_address_the_same_witness :
  query_database sdss (str 1) = [S12_sdss]
  /\ query_database sdss "S12_sdss" = [S12_sdss]
  /\ database sdss (str 1) = database sdss "S12_sdss"
  /\ tables sdss (str 1) None = tables sdss "S12_sdss" None
  /\ table sdss (str 1) "Object" None = table sdss "S12_sdss" "Object" None.
Proof.
  apply (id_and_name_address_the_same sdss S12_sdss "Object" None).
  - simpl. constructor; [intros [] | constructor].
  - simpl. constructor; [intros [] | constructor].
  - simpl. intros d [<- | []]. reflexivity.
  - simpl. left. reflexivity.
Defined.

(** ** Statuses and store queries of the views *)

(** X10: no view ever answers 404 or any status other than 200 and 500,
    and every request sends at least one and at most three queries to the
    store; a request that is answered 200 sends one query in [databases],
    two in [database] and three in [tables] and [table]. *)
Theorem views_answer_200_or_500 (st : Store) (db_id table_id : string)
  (schema_id : option string) :
  (status_of (databases st) = 200 /\ queries (databases st) = 1%nat)
  /\ ((status_of (database st db_id) = 200
       /\ queries (database st db_id) = 2%nat)
      \/ (status_of (database st db_id) = 500
          /\ queries (database st db_id) = 1%nat))
  /\ ((status_of (tables st db_id schema_id) = 200
       /\ queries (tables st db_id schema_id) = 3%nat)
      \/ (status_of (tables st db_id schema_id) = 500
          /\ (1 <= queries (tables st db_id schema_id) <= 2)%nat))
  /\ ((status_of (table st db_id table_id schema_id) = 200
       /\ queries (table st db_id table_id schema_id) = 3%nat)
      \/ (status_of (table st db_id table_id schema_id) = 500
          /\ (1 <= queries (table st db_id table_id schema_id) <= 3)%nat)).
Proof.
  unfold status_of. rewrite database_eq, tables_eq, table_eq.
  split; [split; reflexivity |]. split; [| split].
  - destruct (hd_error (query_database st db_id)); [left | right];
      split; reflexivity.
  - destruct (hd_error (query_database st db_id)) as [d |];
      [| right; unfold queries; simpl; repeat split; lia].
    destruct (schema_query st d schema_id) as [| s [| ? ?]];
      [right | left | right]; unfold queries; simpl; repeat split; lia.
  - destruct (query_database st db_id) as [| d [| ? ?]];
      [right; unfold queries; simpl; repeat split; lia
      | | right; unfold queries; simpl; repeat split; lia].
    destruct (schema_query st d schema_id) as [| s [| ? ?]];
      [right; unfold queries; simpl; repeat split; lia
      | | right; unfold queries; simpl; repeat split; lia].
    destruct (filter (table_matches (sch_id s) table_id)
                (MSDatabaseTable_rows st)) as [| t [| ? ?]];
      [left | left | right]; unfold queries; simpl; repeat split; lia.
Qed.

(** X11: the schema lookup demands at most one row in both views: when two
    schemas of the resolved database match the schema token, or two schemas
    are marked as its default and no token is given, [tables] and [table]
    raise [MultipleResultsFound] after two queries and are answered 500. *)
Theorem ambiguous_schema_is_server_error (st : Store)
  (db_id table_id : string) (schema_id : option string) (d : MSDatabase)
  (s1 s2 : MSDatabaseSchema) (others : list MSDatabaseSchema) :
  query_database st db_id = [d] ->
  schema_query st d schema_id = s1 :: s2 :: others ->
  tables st db_id schema_id
  = ([StoreQuery; StoreQuery], inl MultipleResultsFound)
  /\ table st db_id table_id schema_id
     = ([StoreQuery; StoreQuery], inl MultipleResultsFound)
  /\ status_of (tables st db_id schema_id) = 500
  /\ status_of (table st db_id table_id schema_id) = 500.
Proof.
  intros Hq Hs. unfold status_of.
  rewrite tables_eq, table_eq, Hq. simpl. rewrite Hs. repeat split.
Qed.

Lemma ambiguous_schema_is_server_error_witness :
  tables two_defaults "S12_sdss" None
  = ([StoreQuery; StoreQuery], inl MultipleResultsFound)
  /\ table two_defaults "S12_sdss" "Object" None
     = ([StoreQuery; StoreQuery], inl MultipleResultsFound)
  /\ status_of (tables two_defaults "S12_sdss" None) = 500
  /\ status_of (table two_defaults "S12_sdss" "Object" None) = 500.
Proof.
  apply (ambiguous_schema_is_server_error two_defaults "S12_sdss" "Object" None
           S12_sdss sdss_stripe82_00 other_default []); reflexivity.
Defined.

(** X12: when the table token matches two tables of the resolved schema
    (the name of one is the id of the other), [table] raises
    [MultipleResultsFound] after its third query and is answered 500. *)
Theorem ambiguous_table_is_server_error (st : Store)
  (db_id table_id : string) (schema_id : option string) (d : MSDatabase)
  (s : MSDatabaseSchema) (t1 t2 : MSDatabaseTable)
  (others : list MSDatabaseTable) :
  query_database st db_id = [d] ->
  schema_query st d schema_id = [s] ->
  filter (table_matches (sch_id s) table_id) (MSDatabaseTable_rows st)
  = t1 :: t2 :: others ->
  table st db_id table_id schema_id
  = ([StoreQuery; StoreQuery; StoreQuery], inl MultipleResultsFound)
  /\ status_of (table st db_id table_id schema_id) = 500.
Proof.
  intros Hq Hs Ht. unfold status_of.
  rewrite table_eq, Hq, Hs, Ht. split; reflexivity.
Qed.

Lemma ambiguous_table_is_server_error_witness :
  table ambiguous_tables "S12_sdss" "101" None
  = ([StoreQuery; StoreQuery; StoreQuery], inl MultipleResultsFound)
  /\ status_of (table ambiguous_tables "S12_sdss" "101" None) = 500.
Proof.
  apply (ambiguous_table_is_server_error ambiguous_tables "S12_sdss" "101" None
           S12_sdss sdss_stripe82_00 table_100 table_101 []); reflexivity.
Defined.

(** ** The schema of a tables-list *)

Lemma schema_matches_iff (schema_id : string) (s : MSDatabaseSchema) :
  schema_matches schema_id s = true <->
  sch_name s = schema_id \/ numeric_value schema_id = Some (sch_id s).
Proof.
  unfold schema_matches, id_eq. rewrite orb_true_iff, String.eqb_eq.
  destruct (numeric_value schema_id) as [n |].
  - rewrite Z.eqb_eq. split.
    + intros [-> | H]; auto.
    + intros [H | [= ->]]; auto.
  - split.
    + intros [H | H]; [discriminate | auto].
    + intros [H | H]; [auto | discriminate].
Qed.

Lemma schema_query_In (st : Store) (d : MSDatabase)
  (schema_id : option string) (s : MSDatabaseSchema) :
  In s (schema_query st d schema_id) ->
  In s (MSDatabaseSchema_rows st)
  /\ sch_db_id s = db_id_ d
  /\ match schema_id with
     | Some token =>
         sch_name s = token \/ numeric_value token = Some (sch_id s)
     | None => is_default_schema s = true
     end.
Proof.
  unfold schema_query, default_schema, schemas.
  destruct schema_id as [token |]; intros Hin;
    apply filter_In in Hin; destruct Hin as [Hin Hm];
    apply filter_In in Hin; destruct Hin as [Hin Hdb];
    apply Z.eqb_eq in Hdb; repeat split; auto.
  now apply schema_matches_iff.
Qed.

(** X13: the schema of a tables-list response is a schema of the resolved
    database: a row of the store whose [db_id] is the id of that database,
    which matches the schema token by name or by id, or, without a token, is
    marked as the default. *)
Theorem tables_schema_belongs_to_database (st : Store) (db_id : string)
  (schema_id : option string) (resp : response) :
  outcome (tables st db_id schema_id) = inr resp ->
  exists d s,
    hd_error (query_database st db_id) = Some d
    /\ In s (MSDatabaseSchema_rows st)
    /\ sch_db_id s = db_id_ d
    /\ match schema_id with
       | Some token =>
           sch_name s = token \/ numeric_value token = Some (sch_id s)
       | None => is_default_schema s = true
       end
    /\ resp = jsonify (tables_document st s).
Proof.
  rewrite tables_eq.
  destruct (hd_error (query_database st db_id)) as [d |] eqn:Hd;
    try discriminate.
  destruct (schema_query st d schema_id) as [| s [| ? ?]] eqn:Hs;
    try discriminate.
  simpl. intros [= <-]. exists d, s.
  assert (Hin : In s (schema_query st d schema_id))
    by (rewrite Hs; now left).
  apply schema_query_In in Hin. destruct Hin as [Hin [Hdb Hm]].
  repeat split; auto.
Qed.

Lemma tables_schema_belongs_to_database_witness :
  exists d s,
    hd_error (query_database ambiguous "x") = Some d
    /\ In s (MSDatabaseSchema_rows ambiguous)
    /\ sch_db_id s = db_id_ d
    /\ (sch_name s = "main" \/ numeric_value "main" = Some (sch_id s))
    /\ jsonify (tables_document ambiguous main_x)
       = jsonify (tables_document ambiguous s).
Proof.
  apply (tables_schema_belongs_to_database ambiguous "x" (Some "main")).
  reflexivity.
Defined.

(** ** Ordered dictionaries *)

Lemma odict_set_fresh (d : list (string * json)) (key : string) (value : json) :
  ~ In key (keys d) -> odict_set d key value = d ++ [(key, value)].
Proof.
  induction d as [| [k v] rest IH]; simpl; intros Hnotin; [reflexivity |].
  destruct (String.eqb_spec k key) as [-> | Hne].
  - exfalso. apply Hnotin. now left.
  - f_equal. apply IH. intros Hin. apply Hnotin. now right.
Qed.

(** X14: [response["schemas"] = ...] on the ordered dictionary: the key
    then holds the new value and every other key its old one; a key that was
    present keeps its place, a new key goes after all the others. *)
Theorem odict_set_get (d : list (string * json)) (key : string)
  (value : json) :
  dict_get (odict_set d key value) key = value
  /\ (forall other, other <> key ->
                    dict_get (odict_set d key value) other = dict_get d other)
  /\ (In key (keys d) -> keys (odict_set d key value) = keys d)
  /\ (~ In key (keys d) -> odict_set d key value = d ++ [(key, value)]).
Proof.
  split; [| split; [| split]].
  - induction d as [| [k v] rest IH]; simpl.
    + now rewrite String.eqb_refl.
    + destruct (String.eqb_spec k key) as [-> | Hne]; simpl.
      * now rewrite String.eqb_refl.
      * destruct (String.eqb_spec k key); [contradiction | exact IH].
  - intros other Hother. induction d as [| [k v] rest IH]; simpl.
    + destruct (String.eqb_spec key other) as [e | _]; [| reflexivity].
      now symmetry in e.
    + destruct (String.eqb_spec k key) as [-> | Hne]; simpl.
      * destruct (String.eqb_spec key other) as [e | _]; [| reflexivity].
        now symmetry in e.
      * now rewrite IH.
  - induction d as [| [k v] rest IH]; simpl; [contradiction |].
    intros Hin. destruct (String.eqb_spec k key) as [-> | Hne]; simpl.
    + reflexivity.
    + f_equal. apply IH. destruct Hin as [e | Hin]; [contradiction | exact Hin].
  - apply odict_set_fresh.
Qed.

Lemma odict_set_get_witness :
  let d := [("name", JStr "S12_sdss"); ("schemas", JNull)] in
  dict_get (odict_set d "schemas" (JList [])) "name" = dict_get d "name"
  /\ keys (odict_set d "schemas" (JList [])) = keys d
  /\ odict_set d "port" (JNum 3360) = d ++ [("port", JNum 3360)].
Proof.
  split; [| split].
  - apply (proj1 (proj2 (odict_set_get
               [("name", JStr "S12_sdss"); ("schemas", JNull)]
               "schemas" (JList [])))).
    discriminate.
  - apply (proj1 (proj2 (proj2 (odict_set_get
               [("name", JStr "S12_sdss"); ("schemas", JNull)]
               "schemas" (JList []))))).
    simpl. right. left. reflexivity.
  - apply (proj2 (proj2 (proj2 (odict_set_get
               [("name", JStr "S12_sdss"); ("schemas", JNull)]
               "port" (JNum 3360))))).
    simpl. intros [H | [H | []]]; discriminate.
Defined.

(** ** The views agree with each other *)

Lemma database_document_eq (st : Store) (d : MSDatabase) :
  database_document st d
  = JObj (Database_dump st (Some d)
          ++ [("schemas", JList (listed_schemas st d))]).
Proof.
  unfold database_document, listed_schemas. reflexivity.
Qed.

(** X15: the document of database-detail is the entry of that database in
    the databases list, followed by the field ["schemas"]: every database
    that database-detail answers for is listed by [databases], with the same
    fields in the same order. *)
Theorem database_detail_extends_list_entry (st : Store) (db_id : string)
  (resp : response) :
  outcome (database st db_id) = inr resp ->
  exists summary listed,
    body resp = Some (JObj (summary ++ [("schemas", JList listed)]))
    /\ In (JObj summary) (listed_databases st)
    /\ outcome (databases st)
       = inr (jsonify (JObj [("results", JList (listed_databases st))])).
Proof.
  rewrite database_eq.
  destruct (hd_error (query_database st db_id)) as [d |] eqn:Hd;
    try discriminate.
  simpl. intros [= <-].
  exists (Database_dump st (Some d)), (listed_schemas st d).
  split; [now rewrite database_document_eq |]. split; [| reflexivity].
  unfold listed_databases.
  apply (in_map (fun d => JObj (Database_dump st (Some d)))).
  assert (Hin : In d (query_database st db_id)).
  { destruct (query_database st db_id); [discriminate |].
    injection Hd as ->. now left. }
  now apply filter_In in Hin.
Qed.

Lemma database_detail_extends_list_entry_witness :
  exists summary listed,
    body (jsonify (database_document sdss S12_sdss))
    = Some (JObj (summary ++ [("schemas", JList listed)]))
    /\ In (JObj summary) (listed_databases sdss)
    /\ outcome (databases sdss)
       = inr (jsonify (JObj [("results", JList (listed_databases sdss))])).
Proof.
  apply (database_detail_extends_list_entry sdss "1"). reflexivity.
Defined.

(** X16: the schema of a tables-list response is one of the schemas that
    database-detail lists for the same database token. *)
Theorem tables_schema_is_listed_by_database (st : Store) (db_id : string)
  (schema_id : option string) (resp : response) :
  outcome (tables st db_id schema_id) = inr resp ->
  exists schema_doc tables_doc fields listed,
    body resp
    = Some (JObj [("results",
                   JObj [("schema", schema_doc); ("tables", tables_doc)])])
    /\ outcome (database st db_id) = inr (jsonify (JObj fields))
    /\ dict_get fields "schemas" = JList listed
    /\ In schema_doc listed.
Proof.
  rewrite tables_eq, database_eq.
  destruct (hd_error (query_database st db_id)) as [d |]; try discriminate.
  destruct (schema_query st d schema_id) as [| s [| ? ?]] eqn:Hs;
    try discriminate.
  simpl. intros [= <-].
  exists (JObj (DatabaseSchema_dump (Some s))), (JList (listed_tables st s)),
    (Database_dump st (Some d) ++ [("schemas", JList (listed_schemas st d))]),
    (listed_schemas st d).
  split; [reflexivity |]. split; [now rewrite database_document_eq |].
  split; [reflexivity |].
  unfold listed_schemas.
  apply (in_map (fun s => JObj (DatabaseSchema_dump (Some s)))).
  assert (Hin : In s (schema_query st d schema_id)) by (rewrite Hs; now left).
  unfold schema_query, default_schema in Hin.
  destruct schema_id; apply filter_In in Hin; tauto.
Qed.

Lemma tables_schema_is_listed_by_database_witness :
  exists schema_doc tables_doc fields listed,
    body (jsonify (tables_document sdss sdss_stripe82_00))
    = Some (JObj [("results",
                   JObj [("schema", schema_doc); ("tables", tables_doc)])])
    /\ outcome (database sdss "S12_sdss") = inr (jsonify (JObj fields))
    /\ dict_get fields "schemas" = JList listed
    /\ In schema_doc listed.
Proof.
  apply (tables_schema_is_listed_by_database sdss "S12_sdss" None).
  reflexivity.
Defined.

(** X17: a table that table-detail describes is among the tables that
    tables-list gives for the same database and schema tokens. *)
Theorem table_detail_is_listed_by_tables (st : Store)
  (db_id table_id : string) (schema_id : option string) (resp : response)
  (table_doc : list (string * json)) :
  outcome (table st db_id table_id schema_id) = inr resp ->
  body resp = Some (JObj [("result", JObj table_doc)]) ->
  table_doc <> [] ->
  exists schema_doc listed,
    outcome (tables st db_id schema_id)
    = inr (jsonify (JObj [("results",
                           JObj [("schema", schema_doc);
                                 ("tables", JList listed)])]))
    /\ In (JObj table_doc) listed.
Proof.
  rewrite table_eq, tables_eq.
  destruct (query_database st db_id) as [| d [| ? ?]]; try discriminate.
  cbn [hd_error].
  destruct (schema_query st d schema_id) as [| s [| ? ?]]; try discriminate.
  destruct (filter (table_matches (sch_id s) table_id) (MSDatabaseTable_rows st))
    as [| t [| ? ?]] eqn:Hf; try discriminate; simpl; intros [= <-];
    simpl; intros [= <-]; intros Hne; [contradiction |].
  exists (JObj (DatabaseSchema_dump (Some s))), (listed_tables st s).
  split; [reflexivity |].
  unfold listed_tables.
  apply (in_map (fun t => JObj (DatabaseTable_dump st (Some t)))).
  assert (Hin : In t (filter (table_matches (sch_id s) table_id)
                        (MSDatabaseTable_rows st)))
    by (rewrite Hf; now left).
  apply filter_In in Hin. destruct Hin as [Hin Hm].
  apply table_matches_iff in Hm. destruct Hm as [Hsch _].
  apply filter_In. split; [exact Hin | now apply Z.eqb_eq].
Qed.

Lemma table_detail_is_listed_by_tables_witness :
  exists schema_doc listed,
    outcome (tables sdss "1" None)
    = inr (jsonify (JObj [("results",
                           JObj [("schema", schema_doc);
                                 ("tables", JList listed)])]))
    /\ In (JObj (DatabaseTable_dump sdss (Some Object))) listed.
Proof.
  apply (table_detail_is_listed_by_tables sdss "1" "Object" None
           (jsonify (table_document sdss (Some Object)))
           (DatabaseTable_dump sdss (Some Object))).
  - reflexivity.
  - reflexivity.
  - discriminate.
Defined.

(** ** When database-detail answers *)

(** X18: database-detail is answered 200 exactly when some database row has
    the token for its name or the numeric value of the token for its id; the
    document is then that of the first such row in the order of the store,
    and otherwise the answer is 500. *)
Theorem database_detail_answers_iff (st : Store) (db_id : string) :
  (status_of (database st db_id) = 200
   <-> exists d, In d (MSDatabase_rows st)
                 /\ (db_name d = db_id
                     \/ numeric_value db_id = Some (db_id_ d)))
  /\ (status_of (database st db_id) = 200 \/ status_of (database st db_id) = 500)
  /\ (forall resp,
        outcome (database st db_id) = inr resp ->
        exists d before after,
          MSDatabase_rows st = before ++ d :: after
          /\ database_matches db_id d = true
          /\ Forall (fun d' => database_matches db_id d' = false) before
          /\ resp = jsonify (database_document st d)).
Proof.
  unfold status_of. rewrite database_eq. unfold query_database.
  split; [| split].
  - split.
    + destruct (filter (database_matches db_id) (MSDatabase_rows st))
        as [| d l] eqn:Hf; simpl; [discriminate |].
      intros _. exists d.
      assert (Hin : In d (filter (database_matches db_id) (MSDatabase_rows st)))
        by (rewrite Hf; now left).
      apply filter_In in Hin. destruct Hin as [Hin Hm].
      split; [exact Hin | now apply database_matches_iff].
    + intros [d [Hin Hm]]. apply database_matches_iff in Hm.
      assert (Hf : In d (filter (database_matches db_id) (MSDatabase_rows st)))
        by (apply filter_In; now split).
      destruct (filter (database_matches db_id) (MSDatabase_rows st));
        [contradiction | reflexivity].
  - destruct (hd_error (filter (database_matches db_id) (MSDatabase_rows st)));
      [now left | now right].
  - intros resp.
    induction (MSDatabase_rows st) as [| a l IH]; simpl; [discriminate |].
    destruct (database_matches db_id a) eqn:Ha; simpl.
    + intros [= <-]. exists a, [], l. repeat split; auto.
    + intros H. destruct (IH H) as [d [before [after [-> [Hm [Hb ->]]]]]].
      exists d, (a :: before), after. repeat split; auto.
Qed.

Lemma database_detail_answers_iff_witness :
  exists d before after,
    MSDatabase_rows ambiguous = before ++ d :: after
    /\ database_matches "2" d = true
    /\ Forall (fun d' => database_matches "2" d' = false) before
    /\ jsonify (database_document ambiguous db_two)
       = jsonify (database_document ambiguous d).
Proof.
  apply (proj2 (proj2 (database_detail_answers_iff ambiguous "2"))).
  reflexivity.
Defined.
